(** * etcpak: the command-line driver (Application.cpp)

    A shallow embedding of [main]: option parsing, the dithering policy,
    the choice of the block format, and the four modes of the program
    (benchmark of decoding, benchmark of compression, view, encode).

    [main] talks to collaborators declared in headers that are not part of
    this development (getopt, Bitmap, BlockData, DataProvider, TaskDispatch,
    Error, Timing, System).  Their answers are taken as parameters
    ([CommandLine], [World]); their calls are recorded, in program order, in
    a trace of [Event]s.  A closure handed to [TaskDispatch::Queue] is
    recorded as the one call its body makes. *)

From Stdlib Require Import ZArith List String Ascii Bool Lia Permutation.
Import ListNotations.
Open Scope string_scope.
Open Scope list_scope.
Open Scope Z_scope.

(** ** Data *)

Module BlockData.
(** [BlockData::Type] *)
Inductive type : Set := Etc1 | Etc2_RGB | Etc2_RGBA | Dxt1.

Definition type_eqb (a b : type) : bool :=
  match a, b with
  | Etc1, Etc1 | Etc2_RGB, Etc2_RGB | Etc2_RGBA, Etc2_RGBA | Dxt1, Dxt1 => true
  | _, _ => false
  end.

Definition is_etc2 (t : type) : bool :=
  match t with Etc2_RGB | Etc2_RGBA => true | _ => false end.
End BlockData.

Module Channels.
(** [enum class Channels] *)
Inductive t : Set := RGB | Alpha.
End Channels.

(** [unsigned int]: 32 bits, arithmetic modulo 2^32. *)
Definition uint32 (z : Z) : Z := z mod 2 ^ 32.

(** [int]: 32 bits; the result of an overflowing operation is taken in two's
    complement. *)
Definition int32 (z : Z) : Z := (z + 2 ^ 31) mod 2 ^ 32 - 2 ^ 31.

(** [v2i]: a pair of ints, each within the range of [int]. *)
Record v2i : Set := mk_v2i { x : Z; y : Z }.

(** The value [DataProvider::NextPart] returns.  [src] is the address of the
    first pixel of the part; [width], [lines] and [offset] are
    [unsigned int], values from 0 to 2^32 - 1. *)
Record DataPart : Set := mk_DataPart {
  src : Z;
  width : Z;
  lines : Z;
  offset : Z
}.

(** What a [DataProvider] answers.  [NextPart k] is the answer to the
    [k]-th call (counting from 0) of [dp.NextPart()]. *)
Record DataProvider : Set := mk_DataProvider {
  NumberOfParts : Z;
  Alpha : bool;
  Size : v2i;
  ImageData : Z;
  NextPart : nat -> DataPart
}.

(** What a [Bitmap] answers. *)
Record Bitmap : Set := mk_Bitmap {
  Data : Z;
  BitmapSize : v2i
}.

(** The collaborators of one run. *)
Record World : Type := mk_World {
  CPUCores : Z;
  (** [DataProvider dp( input, mipmap, !dxt1 )] *)
  open_DataProvider : string -> bool -> bool -> DataProvider;
  (** [Bitmap( input, max, !dxt1 )] *)
  load_Bitmap : string -> bool -> Bitmap
}.

(** The command line as [main] sees it: [argc], [argv], the successive
    results [(c, optarg)] of [getopt_long] before it returns -1, and the
    value of [optind] once it has. *)
Record CommandLine : Set := mk_CommandLine {
  argc : Z;
  argv : list string;
  getopt_long : list (Z * string);
  optind : Z
}.

(** The local variables of [main] set by the options. *)
Record Flags : Set := mk_Flags {
  viewMode : bool;
  stats : bool;
  benchmark : bool;
  mipmap : bool;
  dither : bool;
  etc2 : bool;
  rgba : bool;
  dxt1 : bool;
  alpha : option string
}.

(** The values of [enum Options]. *)
Definition OptEtc2 : Z := 0.
Definition OptRgba : Z := 1.
Definition OptDxt1 : Z := 2.

(** A character constant as an int. *)
Definition chr (a : ascii) : Z := Z.of_N (N_of_ascii a).
Arguments chr a%_char.

(** ** The trace *)

(** The two block buffers of [main]. *)
Inductive Buffer : Set := bd | bda.

(** A call of [BlockData::ProcessRGBA] or [BlockData::Process]; the first
    four arguments are the pixel source, the block count, the offset and the
    width. *)
Inductive Call : Set :=
| ProcessRGBA (psrc blockCount poffset pwidth : Z)
| Process (psrc blockCount poffset pwidth : Z) (channel : Channels.t) (pdither : bool).

(** The float expressions [main] prints: [mse] is the value
    [CalcMSE3( dp.ImageData(), *out )] returned. *)
Inductive FExpr : Set :=
| Fmse
| Fint (n : Z)
| Fsqrt (e : FExpr)
| Flog10 (e : FExpr)
| Fmul (a b : FExpr)
| Fsub (a b : FExpr).

(** The lines [main] prints on stdout. *)
Inductive Message : Set :=
| MsgDitheringDisabled
| MsgImageLoadTime
| MsgMedianDecode
| MsgMedianCompression
| MsgRGBData
| MsgRMSE (v : FExpr)
| MsgPSNR (v : FExpr).

Inductive Event : Set :=
| AddCallback
| Usage
| Printf (m : Message)
| GetTime
| Sort
| NewBitmap (input : string) (bgr : bool)
| NewDataProvider (input : string) (pmipmap bgr : bool)
| NewTaskDispatch (cpus : Z)
| OpenBlockData (input : string)
| NewBlockData (b : Buffer) (fname : option string) (size : v2i)
               (pmipmap : bool) (type : BlockData.type)
| Invoke (b : Buffer) (call : Call)
| Queue (i : Z) (b : Buffer) (call : Call)
| Sync
| Decode (b : Buffer)
| CalcMSE3 (original : Z) (decoded : Buffer)
| Write (output : string).

(** ** A monad for [main]: a trace, and either the value of an early
    [return] or the result of the computation so far. *)

Definition M (A : Type) : Type := (list Event * (Z + A))%type.

Definition ret {A} (a : A) : M A := ([], inr a).

Definition bind {A B} (m : M A) (f : A -> M B) : M B :=
  match m with
  | (t, inl code) => (t, inl code)
  | (t, inr a) => let '(t', r) := f a in (t ++ t', r)
  end.

Definition emit (e : Event) : M unit := ([e], inr tt).

Definition return_ {A} (code : Z) : M A := ([], inl code).

Notation "m ;; k" := (bind m (fun _ => k))
  (at level 61, right associativity).
Notation "a <- m ;; k" := (bind m (fun a => k))
  (at level 61, m at next level, right associativity).

(** [for( int i=first; ...; i++ ) body], for [n] iterations. *)
Fixpoint for_loop (n : nat) (first : Z) (body : Z -> M unit) : M unit :=
  match n with
  | O => ret tt
  | S n' => body first ;; for_loop n' (first + 1) body
  end.

(** ** [main], lines 48-124: the options *)

Definition initial_flags : Flags :=
  mk_Flags false false false false false false false false None.

(** One turn of the [switch( c )]. [None] is the [return 1] of [case '?']. *)
Definition option_case (c : Z) (optarg : string) (f : Flags) : option Flags :=
  let '(mk_Flags v s b m d e r x a) := f in
  if c =? chr "?" then None
  else if c =? chr "v" then Some (mk_Flags true s b m d e r x a)
  else if c =? chr "a" then Some (mk_Flags v s b m d e r x (Some optarg))
  else if c =? chr "s" then Some (mk_Flags v true b m d e r x a)
  else if c =? chr "b" then Some (mk_Flags v s true m d e r x a)
  else if c =? chr "m" then Some (mk_Flags v s b true d e r x a)
  else if c =? chr "d" then Some (mk_Flags v s b m true e r x a)
  else if c =? OptEtc2 then Some (mk_Flags v s b m d true r x a)
  else if c =? OptRgba then Some (mk_Flags v s b m d true true x a)
  else if c =? OptDxt1 then Some (mk_Flags v s b m d e r true a)
  else Some f.

(** The [while( ( c = getopt_long( ... ) ) != -1 )] loop. *)
Fixpoint parse_options (rs : list (Z * string)) (f : Flags) : option Flags :=
  match rs with
  | [] => Some f
  | (c, optarg) :: rs' =>
      match option_case c optarg f with
      | None => None
      | Some f' => parse_options rs' f'
      end
  end.

(** Lines 120-124. *)
Definition dithering_policy (f : Flags) : M Flags :=
  if etc2 f && dither f then
    emit (Printf MsgDitheringDisabled) ;;
    ret (let '(mk_Flags v s b m _ e r x a) := f in mk_Flags v s b m false e r x a)
  else ret f.

(** Lines 126-148: [input] and [output]. *)
Definition arg (cl : CommandLine) (i : Z) : string :=
  nth (Z.to_nat i) (argv cl) "".

Definition positional (cl : CommandLine) (f : Flags) : M (string * string) :=
  if benchmark f then
    if argc cl - optind cl <? 1 then emit Usage ;; return_ 1
    else ret (arg cl (optind cl), "")
  else
    if argc cl - optind cl <? 2 then emit Usage ;; return_ 1
    else ret (arg cl (optind cl), arg cl (optind cl + 1)).

(** ** The four modes *)

Definition NumTasks : Z := 9.

(** Lines 154-167. *)
Definition benchmark_decode (input : string) : M unit :=
  emit (OpenBlockData input) ;;
  for_loop (Z.to_nat NumTasks) 0 (fun _ =>
    emit GetTime ;; emit (Decode bd) ;; emit GetTime) ;;
  emit Sort ;;
  emit (Printf MsgMedianDecode).

(** Lines 185-188. *)
Definition benchmark_type (f : Flags) : BlockData.type :=
  if rgba f then BlockData.Etc2_RGBA
  else if etc2 f then BlockData.Etc2_RGB
  else if dxt1 f then BlockData.Dxt1
  else BlockData.Etc1.

(** Lines 171-204. *)
Definition benchmark_encode (w : World) (f : Flags) (input : string) : M unit :=
  emit GetTime ;;
  emit (NewBitmap input (negb (dxt1 f))) ;;
  let bmp := load_Bitmap w input (negb (dxt1 f)) in
  emit GetTime ;;
  emit (Printf MsgImageLoadTime) ;;
  for_loop (Z.to_nat NumTasks) 0 (fun _ =>
    let channel := match alpha f with Some _ => Channels.Alpha | None => Channels.RGB end in
    let type := benchmark_type f in
    emit (NewBlockData bd None (BitmapSize bmp) false type) ;;
    emit GetTime ;;
    (if rgba f then
       emit (Invoke bd (ProcessRGBA (Data bmp)
               (Z.quot (int32 (x (BitmapSize bmp) * y (BitmapSize bmp))) 16) 0
               (x (BitmapSize bmp))))
     else
       emit (Invoke bd (Process (Data bmp)
               (Z.quot (int32 (x (BitmapSize bmp) * y (BitmapSize bmp))) 16) 0
               (x (BitmapSize bmp)) channel (dither f)))) ;;
    emit GetTime) ;;
  emit Sort ;;
  emit (Printf MsgMedianCompression).

(** Lines 209-211. *)
Definition view (input output : string) : M unit :=
  emit (OpenBlockData input) ;;
  emit (Decode bd) ;;
  emit (Write output).

(** Lines 218-237. *)
Definition encode_type (f : Flags) (dp : DataProvider) : BlockData.type :=
  if etc2 f then
    if rgba f && Alpha dp then BlockData.Etc2_RGBA else BlockData.Etc2_RGB
  else if dxt1 f then BlockData.Dxt1
  else BlockData.Etc1.

(** Line 243: is [bda] set? *)
Definition separate_alpha (f : Flags) (dp : DataProvider) : bool :=
  match alpha f with Some _ => true | None => false end
  && Alpha dp && negb (rgba f).

(** [part.width / 4 * part.lines], in [unsigned int]. *)
Definition blockCount (part : DataPart) : Z :=
  uint32 (Z.quot (width part) 4 * lines part).

(** Lines 249-271: the body of the loop over the parts. *)
Definition queue_part (f : Flags) (dp : DataProvider) (type : BlockData.type)
                      (i : Z) : M unit :=
  let part := NextPart dp (Z.to_nat i) in
  if BlockData.type_eqb type BlockData.Etc2_RGBA then
    emit (Queue i bd (ProcessRGBA (src part) (blockCount part) (offset part) (width part)))
  else
    emit (Queue i bd (Process (src part) (blockCount part) (offset part) (width part)
                              Channels.RGB (dither f))) ;;
    if separate_alpha f dp then
      emit (Queue i bda (Process (src part) (blockCount part) (offset part) (width part)
                                 Channels.Alpha false))
    else ret tt.

(** Lines 276-283. *)
Definition PSNR : FExpr :=
  Fsub (Fmul (Fint 20) (Flog10 (Fint 255))) (Fmul (Fint 10) (Flog10 Fmse)).

Definition measure (dp : DataProvider) : M unit :=
  emit (Decode bd) ;;
  emit (CalcMSE3 (ImageData dp) bd) ;;
  emit (Printf MsgRGBData) ;;
  emit (Printf (MsgRMSE (Fsqrt Fmse))) ;;
  emit (Printf (MsgPSNR PSNR)).

(** Lines 215-283. *)
Definition encode (w : World) (cpus : Z) (f : Flags) (input output : string) : M unit :=
  emit (NewDataProvider input (mipmap f) (negb (dxt1 f))) ;;
  let dp := open_DataProvider w input (mipmap f) (negb (dxt1 f)) in
  let num := NumberOfParts dp in
  let type := encode_type f dp in
  emit (NewTaskDispatch cpus) ;;
  emit (NewBlockData bd (Some output) (Size dp) (mipmap f) type) ;;
  (if separate_alpha f dp
   then emit (NewBlockData bda (alpha f) (Size dp) (mipmap f) type)
   else ret tt) ;;
  for_loop (Z.to_nat num) 0 (queue_part f dp type) ;;
  emit Sync ;;
  if stats f then measure dp else ret tt.

(** ** [main] *)

Definition main_body (cl : CommandLine) (w : World) : M unit :=
  emit AddCallback ;;
  let cpus := CPUCores w in
  (if argc cl <? 3 then emit Usage ;; return_ 1 else ret tt) ;;
  f <- match parse_options (getopt_long cl) initial_flags with
       | None => emit Usage ;; return_ 1
       | Some f => ret f
       end ;;
  f <- dithering_policy f ;;
  io <- positional cl f ;;
  let '(input, output) := io in
  (if benchmark f then
     if viewMode f then benchmark_decode input
     else benchmark_encode w f input
   else if viewMode f then view input output
   else encode w cpus f input output) ;;
  return_ 0.

(** The trace of a run and the value [main] returns. *)
Definition main (cl : CommandLine) (w : World) : list Event * Z :=
  let '(t, r) := main_body cl w in
  (t, match r with inl code => code | inr _ => 0 end).

(** ** Reading a run *)

(** The locals after lines 120-124. *)
Definition settled (f : Flags) : Flags :=
  if etc2 f && dither f then
    let '(mk_Flags v s b m _ e r x a) := f in mk_Flags v s b m false e r x a
  else f.

(** The locals with which a run reaches line 150, if it does. *)
Definition configured (cl : CommandLine) : option Flags :=
  if argc cl <? 3 then None
  else match parse_options (getopt_long cl) initial_flags with
       | None => None
       | Some f0 =>
           let f := settled f0 in
           if argc cl - optind cl <? (if benchmark f then 1 else 2) then None
           else Some f
       end.

(** [input] (line 136 or 146) and the data provider of line 215. *)
Definition input_of (cl : CommandLine) : string := arg cl (optind cl).

Definition dp_of (cl : CommandLine) (w : World) (f : Flags) : DataProvider :=
  open_DataProvider w (input_of cl) (mipmap f) (negb (dxt1 f)).

Definition is_Queue (e : Event) : bool :=
  match e with Queue _ _ _ => true | _ => false end.

Definition is_Sync (e : Event) : bool :=
  match e with Sync => true | _ => false end.

Definition is_Decode (e : Event) : bool :=
  match e with Decode _ => true | _ => false end.

Definition is_NewBlockData (e : Event) : bool :=
  match e with NewBlockData _ _ _ _ _ => true | _ => false end.

(** [first; first+1; ...], [n] values. *)
Fixpoint iota (first : Z) (n : nat) : list Z :=
  match n with
  | O => []
  | S n' => first :: iota (first + 1) n'
  end.

(** The units queued for the part of index [i]. *)
Definition part_units (f : Flags) (dp : DataProvider) (type : BlockData.type)
                      (i : Z) : list Event :=
  let part := NextPart dp (Z.to_nat i) in
  if BlockData.type_eqb type BlockData.Etc2_RGBA then
    [Queue i bd (ProcessRGBA (src part) (blockCount part) (offset part) (width part))]
  else
    Queue i bd (Process (src part) (blockCount part) (offset part) (width part)
                        Channels.RGB (dither f))
    :: (if separate_alpha f dp then
          [Queue i bda (Process (src part) (blockCount part) (offset part) (width part)
                                Channels.Alpha false)]
        else []).

Definition measure_trace (dp : DataProvider) : list Event :=
  [Decode bd; CalcMSE3 (ImageData dp) bd; Printf MsgRGBData;
   Printf (MsgRMSE (Fsqrt Fmse)); Printf (MsgPSNR PSNR)].

Definition setup_trace (cpus : Z) (f : Flags) (dp : DataProvider)
                       (input output : string) : list Event :=
  [NewDataProvider input (mipmap f) (negb (dxt1 f));
   NewTaskDispatch cpus;
   NewBlockData bd (Some output) (Size dp) (mipmap f) (encode_type f dp)]
  ++ (if separate_alpha f dp
      then [NewBlockData bda (alpha f) (Size dp) (mipmap f) (encode_type f dp)]
      else []).

Definition queue_trace (f : Flags) (dp : DataProvider) : list Event :=
  flat_map (part_units f dp (encode_type f dp))
           (iota 0 (Z.to_nat (NumberOfParts dp))).

Definition encode_trace (cpus : Z) (f : Flags) (dp : DataProvider)
                        (input output : string) : list Event :=
  setup_trace cpus f dp input output ++ queue_trace f dp
  ++ [Sync] ++ (if stats f then measure_trace dp else []).

(** One turn of the loop of lines 179-201. *)
Definition benchmark_turn (f : Flags) (bmp : Bitmap) : list Event :=
  [NewBlockData bd None (BitmapSize bmp) false (benchmark_type f);
   GetTime;
   Invoke bd
     (if rgba f then
        ProcessRGBA (Data bmp) (Z.quot (int32 (x (BitmapSize bmp) * y (BitmapSize bmp))) 16) 0
                    (x (BitmapSize bmp))
      else
        Process (Data bmp) (Z.quot (int32 (x (BitmapSize bmp) * y (BitmapSize bmp))) 16) 0
                (x (BitmapSize bmp))
                (match alpha f with Some _ => Channels.Alpha | None => Channels.RGB end)
                (dither f));
   GetTime].

Definition benchmark_encode_trace (w : World) (f : Flags) (input : string) : list Event :=
  [GetTime; NewBitmap input (negb (dxt1 f)); GetTime; Printf MsgImageLoadTime]
  ++ flat_map (fun _ => benchmark_turn f (load_Bitmap w input (negb (dxt1 f))))
              (iota 0 (Z.to_nat NumTasks))
  ++ [Sort; Printf MsgMedianCompression].

Definition benchmark_decode_trace (input : string) : list Event :=
  [OpenBlockData input]
  ++ flat_map (fun _ => [GetTime; Decode bd; GetTime]) (iota 0 (Z.to_nat NumTasks))
  ++ [Sort; Printf MsgMedianDecode].

(** The trace of the mode a configured run takes (lines 150-284). *)
Definition mode_trace (cl : CommandLine) (w : World) (f : Flags) : list Event :=
  if benchmark f then
    if viewMode f then benchmark_decode_trace (input_of cl)
    else benchmark_encode_trace w f (input_of cl)
  else if viewMode f then
    [OpenBlockData (input_of cl); Decode bd; Write (arg cl (optind cl + 1))]
  else encode_trace (CPUCores w) f (dp_of cl w f) (input_of cl) (arg cl (optind cl + 1)).

(** The calls of the block codec a trace makes, directly or in a queued unit. *)
Definition call_of (e : Event) : list Call :=
  match e with
  | Invoke _ c => [c]
  | Queue _ _ c => [c]
  | _ => []
  end.

Definition calls (t : list Event) : list Call := flat_map call_of t.

(** The formats of the block buffers a trace allocates. *)
Definition type_of (e : Event) : list BlockData.type :=
  match e with
  | NewBlockData _ _ _ _ ty => [ty]
  | _ => []
  end.

Definition types (t : list Event) : list BlockData.type := flat_map type_of t.

(** The notice of line 122, when the options ask for ETC2 and dithering. *)
Definition notice (cl : CommandLine) : list Event :=
  if argc cl <? 3 then []
  else match parse_options (getopt_long cl) initial_flags with
       | Some f0 => if etc2 f0 && dither f0 then [Printf MsgDitheringDisabled] else []
       | None => []
       end.

(** The block count a call is given. *)
Definition call_blockCount (c : Call) : Z :=
  match c with
  | ProcessRGBA _ n _ _ => n
  | Process _ n _ _ _ _ => n
  end.

(** Does a call ask for dithering? [ProcessRGBA] has no such argument. *)
Definition call_dither (c : Call) : bool :=
  match c with
  | ProcessRGBA _ _ _ _ => false
  | Process _ _ _ _ _ d => d
  end.

(** The units a trace queues. *)
Definition queued (t : list Event) : list Event := filter is_Queue t.

(** How many units are queued per part. *)
Definition units_per_part (f : Flags) (dp : DataProvider) : nat :=
  if separate_alpha f dp then 2%nat else 1%nat.

(** The format selection table, as a function of the flags and of the
    presence of an alpha channel in the source:
    etc2=false, dxt1=false: ETC1; etc2, rgba, alpha: ETC2_RGBA;
    etc2, rgba, no alpha: ETC2_RGB; etc2, no rgba: ETC2_RGB;
    dxt1, etc2=false: DXT1. *)
Definition format_table (etc2 rgba dxt1 sourceHasAlpha : bool) : BlockData.type :=
  match etc2, dxt1 with
  | false, false => BlockData.Etc1
  | false, true => BlockData.Dxt1
  | true, _ =>
      if rgba then
        if sourceHasAlpha then BlockData.Etc2_RGBA else BlockData.Etc2_RGB
      else BlockData.Etc2_RGB
  end.

(** The number of 4x4 blocks of a part of [lines] rows of pixels:
    (width x lines) / 16. *)
Definition pixel_blocks (part : DataPart) : Z :=
  width part * lines part / 16.

(** An interpretation of the float operations of lines 281-282. *)
Record FloatOps (F : Type) : Type := mk_FloatOps {
  of_int : Z -> F;
  fsqrt : F -> F;
  flog10 : F -> F;
  fmul : F -> F -> F;
  fsub : F -> F -> F
}.
Arguments of_int {F}.
Arguments fsqrt {F}.
Arguments flog10 {F}.
Arguments fmul {F}.
Arguments fsub {F}.

Fixpoint eval {F} (ops : FloatOps F) (mse : F) (e : FExpr) : F :=
  match e with
  | Fmse => mse
  | Fint n => of_int ops n
  | Fsqrt a => fsqrt ops (eval ops mse a)
  | Flog10 a => flog10 ops (eval ops mse a)
  | Fmul a b => fmul ops (eval ops mse a) (eval ops mse b)
  | Fsub a b => fsub ops (eval ops mse a) (eval ops mse b)
  end.

(** Does an event concern the separate alpha buffer? *)
Definition on_bda (e : Event) : bool :=
  match e with
  | NewBlockData bda _ _ _ _ | Invoke bda _ | Queue _ bda _ | Decode bda => true
  | _ => false
  end.

(** The two units of a part when the alpha channel goes to its own buffer. *)
Definition color_and_alpha_units (f : Flags) (dp : DataProvider) (i : Z) : list Event :=
  let part := NextPart dp (Z.to_nat i) in
  [Queue i bd (Process (src part) (blockCount part) (offset part) (width part)
                       Channels.RGB (dither f));
   Queue i bda (Process (src part) (blockCount part) (offset part) (width part)
                        Channels.Alpha false)].

(** The format selection table read with the alpha channel of the source,
    for every buffer of a run. *)
Definition follows_table (cl : CommandLine) (w : World) (f : Flags) : Prop :=
  forall b n s m ty,
    In (NewBlockData b n s m ty) (fst (main cl w)) ->
    ty = format_table (etc2 f) (rgba f) (dxt1 f) (Alpha (dp_of cl w f)).

(** Every queued unit is given the number of 4x4 blocks of a part of
    [lines] rows of pixels. *)
Definition counts_pixel_blocks (cl : CommandLine) (w : World) (f : Flags) : Prop :=
  forall i b c,
    In (Queue i b c) (fst (main cl w)) ->
    call_blockCount c = pixel_blocks (NextPart (dp_of cl w f) (Z.to_nat i)).

(** A request for RGBA output on a source without alpha is reported, and
    the run allocates no buffer and queues no unit. *)
Definition reports_missing_alpha (cl : CommandLine) (w : World) (f : Flags) : Prop :=
  rgba f = true -> Alpha (dp_of cl w f) = false ->
  snd (main cl w) <> 0 /\ types (fst (main cl w)) = [] /\
  queued (fst (main cl w)) = [].

(** Equality of buffers. *)
Definition Buffer_eqb (a b : Buffer) : bool :=
  match a, b with
  | bd, bd | bda, bda => true
  | _, _ => false
  end.

(** ** Sample runs *)

Module Sample.

(** Two parts, 8 pixels wide, 4 lines each. *)
Definition part (k : nat) : DataPart :=
  mk_DataPart (Z.of_nat k * 32) 8 4 (Z.of_nat k * 64).

Definition dp (hasAlpha : bool) : DataProvider :=
  mk_DataProvider 2 hasAlpha (mk_v2i 8 32) 0 part.

Definition world (hasAlpha : bool) : World :=
  mk_World 4 (fun _ _ _ => dp hasAlpha) (fun _ _ => mk_Bitmap 0 (mk_v2i 8 32)).

(** [etcpak in.png out.pvr] *)
Definition plain : CommandLine :=
  mk_CommandLine 3 ["etcpak"; "in.png"; "out.pvr"] [] 1.

(** [etcpak -d -a alpha.pvr in.png out.pvr] *)
Definition dither_alpha : CommandLine :=
  mk_CommandLine 6 ["etcpak"; "-d"; "-a"; "alpha.pvr"; "in.png"; "out.pvr"]
                 [(chr "d", ""); (chr "a", "alpha.pvr")] 4.

(** [etcpak -d -s --etc2 -a alpha.pvr in.png out.pvr] *)
Definition etc2_dither_alpha : CommandLine :=
  mk_CommandLine 8
    ["etcpak"; "-d"; "-s"; "--etc2"; "-a"; "alpha.pvr"; "in.png"; "out.pvr"]
    [(chr "d", ""); (chr "s", ""); (OptEtc2, ""); (chr "a", "alpha.pvr")] 6.


(** [etcpak --rgba in.png out.pvr] *)
Definition rgba_plain : CommandLine :=
  mk_CommandLine 4 ["etcpak"; "--rgba"; "in.png"; "out.pvr"] [(OptRgba, "")] 2.

(** [etcpak -b --rgba in.png] *)
Definition benchmark_rgba : CommandLine :=
  mk_CommandLine 4 ["etcpak"; "-b"; "--rgba"; "in.png"]
                 [(chr "b", ""); (OptRgba, "")] 3.

(** [etcpak --rgba in.png], the output is missing *)
Definition no_output : CommandLine :=
  mk_CommandLine 3 ["etcpak"; "--rgba"; "in.png"] [(OptRgba, "")] 2.

(** The locals these command lines set. *)
Definition flags (d s b e r : bool) (a : option string) : Flags :=
  mk_Flags false s b false d e r false a.

End Sample.

(** ** Reading the options as a whole *)

(** Is [c] among the results of [getopt_long]? *)
Definition has_option (c : Z) (rs : list (Z * string)) : bool :=
  existsb (fun r => fst r =? c) rs.

(** The argument of the last option [c] of [rs], [d] when there is none. *)
Fixpoint last_optarg (c : Z) (rs : list (Z * string)) (d : option string)
  : option string :=
  match rs with
  | [] => d
  | (c', a) :: rs' => last_optarg c rs' (if c' =? c then Some a else d)
  end.

(** The locals a list of options sets, read off the list as a whole. *)
Definition options_flags (rs : list (Z * string)) : Flags :=
  mk_Flags (has_option (chr "v") rs) (has_option (chr "s") rs)
           (has_option (chr "b") rs) (has_option (chr "m") rs)
           (has_option (chr "d") rs)
           (has_option OptEtc2 rs || has_option OptRgba rs)
           (has_option OptRgba rs) (has_option OptDxt1 rs)
           (last_optarg (chr "a") rs None).

(** The boolean locals of two runs agree. *)
Definition same_switches (f g : Flags) : Prop :=
  viewMode f = viewMode g /\ stats f = stats g /\ benchmark f = benchmark g /\
  mipmap f = mipmap g /\ dither f = dither g /\ etc2 f = etc2 g /\
  rgba f = rgba g /\ dxt1 f = dxt1 g.

(** ** Reading the calls and the buffers of a trace *)

Definition is_ProcessRGBA (c : Call) : bool :=
  match c with
  | ProcessRGBA _ _ _ _ => true
  | Process _ _ _ _ _ _ => false
  end.

(** The buffer an event works on. *)
Definition uses (e : Event) : option Buffer :=
  match e with
  | Invoke b _ | Queue _ b _ | Decode b | CalcMSE3 _ b => Some b
  | _ => None
  end.

(** Does an event construct the buffer [b]?  [BlockData( input )] is [bd]. *)
Definition creates (b : Buffer) (e : Event) : bool :=
  match e with
  | NewBlockData b' _ _ _ _ => Buffer_eqb b' b
  | OpenBlockData _ => Buffer_eqb bd b
  | _ => false
  end.

Definition uses_buffer (b : Buffer) (e : Event) : bool :=
  match uses e with
  | Some b' => Buffer_eqb b' b
  | None => false
  end.

(** Every event of [t] that is a [user] comes after some [maker]; [seen]
    says whether a maker came before [t]. *)
Fixpoint preceded (user maker : Event -> bool) (seen : bool) (t : list Event)
  : bool :=
  match t with
  | [] => true
  | e :: t' =>
      (negb (user e) || seen) && preceded user maker (seen || maker e) t'
  end.

Definition is_NewTaskDispatch (e : Event) : bool :=
  match e with NewTaskDispatch _ => true | _ => false end.

(** The events that go through [TaskDispatch]. *)
Definition needs_pool (e : Event) : bool :=
  match e with Queue _ _ _ | Sync => true | _ => false end.

(** The events of the partitioner and of the pool. *)
Definition is_pool_event (e : Event) : bool :=
  match e with
  | NewDataProvider _ _ _ | NewTaskDispatch _ | Queue _ _ _ | Sync => true
  | _ => false
  end.

Definition is_Write (e : Event) : bool :=
  match e with Write _ => true | _ => false end.

Definition is_Invoke (e : Event) : bool :=
  match e with Invoke _ _ => true | _ => false end.

(** The call of one turn of the benchmark (lines 191-198). *)
Definition whole_bitmap_call (f : Flags) (bmp : Bitmap) : Call :=
  if rgba f then
    ProcessRGBA (Data bmp) (Z.quot (int32 (x (BitmapSize bmp) * y (BitmapSize bmp))) 16) 0
                (x (BitmapSize bmp))
  else
    Process (Data bmp) (Z.quot (int32 (x (BitmapSize bmp) * y (BitmapSize bmp))) 16) 0
            (x (BitmapSize bmp))
            (match alpha f with Some _ => Channels.Alpha | None => Channels.RGB end)
            (dither f).

(** The unit queued on [bd] for the part of index [i] (lines 251-263). *)
Definition colour_unit (f : Flags) (dp : DataProvider) (i : Z) : Event :=
  let part := NextPart dp (Z.to_nat i) in
  Queue i bd
    (if BlockData.type_eqb (encode_type f dp) BlockData.Etc2_RGBA then
       ProcessRGBA (src part) ((Z.quot (width part) 4 * lines part) mod 2 ^ 32)
                   (offset part) (width part)
     else
       Process (src part) ((Z.quot (width part) 4 * lines part) mod 2 ^ 32)
               (offset part) (width part) Channels.RGB (dither f)).

(** ** More sample runs *)

Module Runs.

(** [etcpak --etc2 -d in.png], the output is missing *)
Definition etc2_dither_no_output : CommandLine :=
  mk_CommandLine 4 ["etcpak"; "--etc2"; "-d"; "in.png"]
                 [(OptEtc2, ""); (chr "d", "")] 3.

(** [etcpak -a first.pvr -d -a last.pvr in.png out.pvr] *)
Definition two_alpha_paths : CommandLine :=
  mk_CommandLine 8
    ["etcpak"; "-a"; "first.pvr"; "-d"; "-a"; "last.pvr"; "in.png"; "out.pvr"]
    [(chr "a", "first.pvr"); (chr "d", ""); (chr "a", "last.pvr")] 6.

(** [etcpak -b -d -a alpha.pvr -m -s in.png] *)
Definition benchmark_alpha : CommandLine :=
  mk_CommandLine 8
    ["etcpak"; "-b"; "-d"; "-a"; "alpha.pvr"; "-m"; "-s"; "in.png"]
    [(chr "b", ""); (chr "d", ""); (chr "a", "alpha.pvr"); (chr "m", "");
     (chr "s", "")] 7.

(** [etcpak -b -v in.pvr] *)
Definition benchmark_view : CommandLine :=
  mk_CommandLine 4 ["etcpak"; "-b"; "-v"; "in.pvr"]
                 [(chr "b", ""); (chr "v", "")] 3.

(** [etcpak -v -s --etc2 in.pvr out.png] *)
Definition view_etc2 : CommandLine :=
  mk_CommandLine 6 ["etcpak"; "-v"; "-s"; "--etc2"; "in.pvr"; "out.png"]
                 [(chr "v", ""); (chr "s", ""); (OptEtc2, "")] 4.

End Runs.

(** ** The monad and the loops *)

Lemma bind_emit {B} (e : Event) (k : unit -> M B) :
  bind (emit e) k = (e :: fst (k tt), snd (k tt)).
Proof. unfold bind, emit. destruct (k tt). reflexivity. Qed.

Lemma bind_value {A B} (t : list Event) (a : A) (k : A -> M B) :
  bind (t, inr a) k = (t ++ fst (k a), snd (k a)).
Proof. unfold bind. destruct (k a). reflexivity. Qed.

Lemma for_loop_value (body : Z -> M unit) (g : Z -> list Event) :
  (forall i, body i = (g i, inr tt)) ->
  forall n first, for_loop n first body = (flat_map g (iota first n), inr tt).
Proof.
  intros Hbody. induction n as [|n IH]; intros first; simpl.
  - reflexivity.
  - rewrite Hbody, bind_value, IH. reflexivity.
Qed.

Lemma queue_part_value f dp type i :
  queue_part f dp type i = (part_units f dp type i, inr tt).
Proof.
  unfold queue_part, part_units.
  destruct (BlockData.type_eqb type BlockData.Etc2_RGBA); [reflexivity|].
  destruct (separate_alpha f dp); reflexivity.
Qed.

Lemma encode_value w cpus f input output :
  encode w cpus f input output
  = (encode_trace cpus f (open_DataProvider w input (mipmap f) (negb (dxt1 f)))
                  input output, inr tt).
Proof.
  unfold encode, encode_trace, setup_trace, queue_trace.
  rewrite (for_loop_value _ _ (queue_part_value f _ _)).
  set (dp := open_DataProvider w input (mipmap f) (negb (dxt1 f))).
  destruct (separate_alpha f dp), (stats f); unfold measure, measure_trace;
    rewrite !bind_emit, ?bind_value; cbn [fst snd emit ret bind app];
    rewrite ?app_nil_r, <- ?app_assoc; reflexivity.
Qed.

Lemma benchmark_encode_value w f input :
  benchmark_encode w f input = (benchmark_encode_trace w f input, inr tt).
Proof.
  unfold benchmark_encode, benchmark_encode_trace.
  rewrite (for_loop_value _ (fun _ => benchmark_turn f (load_Bitmap w input (negb (dxt1 f))))).
  - rewrite !bind_emit, bind_value. reflexivity.
  - intros _. unfold benchmark_turn. destruct (rgba f); reflexivity.
Qed.

Lemma benchmark_decode_value input :
  benchmark_decode input = (benchmark_decode_trace input, inr tt).
Proof. reflexivity. Qed.

Lemma dithering_policy_value f :
  dithering_policy f
  = (if etc2 f && dither f then [Printf MsgDitheringDisabled] else [], inr (settled f)).
Proof.
  unfold dithering_policy, settled. destruct (etc2 f && dither f); reflexivity.
Qed.

(** ** The shape of a run *)

Lemma main_value cl w :
  main cl w
  = match configured cl with
    | Some f => (AddCallback :: notice cl ++ mode_trace cl w f, 0)
    | None => (AddCallback :: notice cl ++ [Usage], 1)
    end.
Proof.
  unfold configured, notice, main, main_body, mode_trace, input_of, dp_of.
  destruct (argc cl <? 3); [reflexivity|].
  destruct (parse_options (getopt_long cl) initial_flags) as [f0|]; [|reflexivity].
  rewrite bind_emit. cbn [bind ret fst snd app].
  rewrite dithering_policy_value, bind_value.
  unfold positional.
  set (f := settled f0).
  destruct (benchmark f) eqn:Hb;
    (destruct (argc cl - optind cl <? _); [reflexivity|]);
    unfold ret; rewrite bind_value; cbn [fst snd];
    destruct (viewMode f);
    rewrite ?benchmark_decode_value, ?benchmark_encode_value, ?encode_value;
    rewrite ?bind_value; rewrite ?Hb;
    cbn [fst snd return_ app]; rewrite ?app_nil_r; reflexivity.
Qed.

(** ** The options *)

Ltac option_cases c :=
  unfold option_case;
  repeat match goal with
         | |- context [c =? ?k] => destruct (c =? k)
         end.

Lemma option_case_rgba_etc2 c a f f' :
  option_case c a f = Some f' ->
  (rgba f = true -> etc2 f = true) ->
  rgba f' = true -> etc2 f' = true.
Proof.
  destruct f as [v s b m d e r x al]; simpl.
  option_cases c; intros H; inversion H; subst; simpl; auto.
Qed.

Lemma option_case_keeps c a f f' :
  option_case c a f = Some f' ->
  (rgba f = true -> rgba f' = true) /\
  (etc2 f = true -> etc2 f' = true) /\
  (dither f = true -> dither f' = true).
Proof.
  destruct f as [v s b m d e r x al]; simpl.
  option_cases c; intros H; inversion H; subst; simpl; auto.
Qed.


Lemma option_case_d a f :
  exists f', option_case (chr "d") a f = Some f' /\ dither f' = true.
Proof. destruct f as [v s b m d e r x al]. eexists; simpl; auto. Qed.

Lemma parse_options_rgba_etc2 rs : forall f f',
  parse_options rs f = Some f' ->
  (rgba f = true -> etc2 f = true) ->
  rgba f' = true -> etc2 f' = true.
Proof.
  induction rs as [|[c a] rs IH]; simpl; intros f f' H Hinv.
  - inversion H; subst; exact Hinv.
  - destruct (option_case c a f) as [f1|] eqn:E; [|discriminate].
    apply (IH f1 f' H). exact (option_case_rgba_etc2 _ _ _ _ E Hinv).
Qed.

Lemma parse_options_keeps rs : forall f f',
  parse_options rs f = Some f' ->
  (rgba f = true -> rgba f' = true) /\
  (etc2 f = true -> etc2 f' = true) /\
  (dither f = true -> dither f' = true).
Proof.
  induction rs as [|[c a] rs IH]; simpl; intros f f' H.
  - inversion H; subst; auto.
  - destruct (option_case c a f) as [f1|] eqn:E; [|discriminate].
    destruct (option_case_keeps _ _ _ _ E) as (K1 & K2 & K3).
    destruct (IH f1 f' H) as (L1 & L2 & L3). auto.
Qed.


Lemma parse_options_d rs a : forall f f',
  In (chr "d", a) rs -> parse_options rs f = Some f' -> dither f' = true.
Proof.
  induction rs as [|[c a'] rs IH]; simpl; intros f f' Hin H; [contradiction|].
  destruct (option_case c a' f) as [f1|] eqn:E; [|discriminate].
  destruct Hin as [Heq|Hin].
  - inversion Heq; subst.
    destruct (option_case_d a f) as (f2 & E2 & Hd).
    rewrite E in E2; inversion E2; subst.
    destruct (parse_options_keeps _ _ _ H) as (_ & _ & K3). auto.
  - exact (IH f1 f' Hin H).
Qed.

Lemma settled_fields f :
  viewMode (settled f) = viewMode f /\ stats (settled f) = stats f /\
  benchmark (settled f) = benchmark f /\ mipmap (settled f) = mipmap f /\
  etc2 (settled f) = etc2 f /\ rgba (settled f) = rgba f /\
  dxt1 (settled f) = dxt1 f /\ alpha (settled f) = alpha f /\
  dither (settled f) = dither f && negb (etc2 f).
Proof.
  destruct f as [v s b m d e r x al]; unfold settled; simpl.
  destruct e, d; simpl; repeat split; reflexivity.
Qed.

(** What [configured] says, piece by piece. *)
Lemma configured_inv cl f :
  configured cl = Some f ->
  exists f0,
    parse_options (getopt_long cl) initial_flags = Some f0 /\
    f = settled f0 /\
    (argc cl <? 3) = false /\
    (argc cl - optind cl <? (if benchmark f then 1 else 2)) = false.
Proof.
  unfold configured.
  destruct (argc cl <? 3); [discriminate|].
  destruct (parse_options (getopt_long cl) initial_flags) as [f0|]; [|discriminate].
  destruct (argc cl - optind cl <? _) eqn:E; [discriminate|].
  intros H; inversion H; subst. exists f0; auto.
Qed.

Lemma configured_rgba_etc2 cl f :
  configured cl = Some f -> rgba f = true -> etc2 f = true.
Proof.
  intros H Hr. destruct (configured_inv _ _ H) as (f0 & Hp & -> & _).
  destruct (settled_fields f0) as (_ & _ & _ & _ & He & Hr' & _).
  rewrite He. rewrite Hr' in Hr.
  apply (parse_options_rgba_etc2 _ _ _ Hp); [discriminate | exact Hr].
Qed.

Lemma configured_etc2_dither cl f :
  configured cl = Some f -> etc2 f = true -> dither f = false.
Proof.
  intros H He. destruct (configured_inv _ _ H) as (f0 & Hp & -> & _).
  destruct (settled_fields f0) as (_ & _ & _ & _ & He' & _ & _ & _ & Hd).
  rewrite Hd. rewrite He' in He. rewrite He. apply andb_false_r.
Qed.

(** ** Events of a run *)

Lemma in_notice cl e : In e (notice cl) -> e = Printf MsgDitheringDisabled.
Proof.
  unfold notice. destruct (argc cl <? 3); [contradiction|].
  destruct (parse_options _ _) as [f0|]; [|contradiction].
  destruct (etc2 f0 && dither f0); simpl; intuition.
Qed.

(** An event of a run is the registration of the callback, the notice, the
    usage, or an event of the mode the run takes. *)
Lemma main_event cl w e :
  In e (fst (main cl w)) ->
  e = AddCallback \/ e = Printf MsgDitheringDisabled \/
  (e = Usage /\ configured cl = None) \/
  (exists f, configured cl = Some f /\ In e (mode_trace cl w f)).
Proof.
  rewrite main_value. destruct (configured cl) as [f|]; simpl;
    (intros [H|H]; [auto|]); apply in_app_or in H;
    (destruct H as [H|H]; [right; left; exact (in_notice _ _ H)|]).
  - right; right; right. exists f; auto.
  - simpl in H. destruct H as [H|[]]. auto.
Qed.

Lemma main_configured cl w f :
  configured cl = Some f ->
  main cl w = (AddCallback :: notice cl ++ mode_trace cl w f, 0).
Proof. intros H. rewrite main_value, H. reflexivity. Qed.

Lemma in_iota i n : forall first, In i (iota first n) -> first <= i < first + Z.of_nat n.
Proof.
  induction n as [|n IH]; intros first; simpl; [contradiction|].
  intros [<-|H]; [lia|]. apply IH in H. lia.
Qed.

Lemma length_iota n : forall first, List.length (iota first n) = n.
Proof. induction n as [|n IH]; intros; simpl; [|rewrite IH]; reflexivity. Qed.

(** Where the events of the encode mode come from. *)
Lemma in_encode_trace cpus f dp input output e :
  In e (encode_trace cpus f dp input output) ->
  In e (setup_trace cpus f dp input output) \/
  (exists i, 0 <= i < Z.of_nat (Z.to_nat (NumberOfParts dp)) /\
             In e (part_units f dp (encode_type f dp) i)) \/
  e = Sync \/
  (stats f = true /\ In e (measure_trace dp)).
Proof.
  unfold encode_trace, queue_trace. intros H.
  apply in_app_or in H; destruct H as [H|H]; [auto|].
  apply in_app_or in H; destruct H as [H|H].
  - apply in_flat_map in H. destruct H as (i & Hi & He).
    apply in_iota in Hi. right; left; exists i; split; [lia|exact He].
  - simpl in H. destruct H as [H|H]; [auto|].
    destruct (stats f); [auto|contradiction].
Qed.

Lemma in_benchmark_encode_trace w f input e :
  In e (benchmark_encode_trace w f input) ->
  In e [GetTime; NewBitmap input (negb (dxt1 f)); Printf MsgImageLoadTime;
        Sort; Printf MsgMedianCompression]
  \/ In e (benchmark_turn f (load_Bitmap w input (negb (dxt1 f)))).
Proof.
  unfold benchmark_encode_trace. intros H.
  apply in_app_or in H; destruct H as [H|H]; [left; simpl in *; intuition|].
  apply in_app_or in H; destruct H as [H|H]; [|left; simpl in *; intuition].
  apply in_flat_map in H. destruct H as (_ & _ & H). auto.
Qed.

Lemma encode_type_etc2 f dp : BlockData.is_etc2 (encode_type f dp) = etc2 f.
Proof.
  unfold encode_type. destruct (etc2 f), (rgba f), (Alpha dp), (dxt1 f); reflexivity.
Qed.

Lemma benchmark_type_etc2 f :
  (rgba f = true -> etc2 f = true) ->
  BlockData.is_etc2 (benchmark_type f) = etc2 f.
Proof.
  unfold benchmark_type. destruct (rgba f), (etc2 f), (dxt1 f); simpl; auto;
    intros H; symmetry; apply H; reflexivity.
Qed.

Lemma encode_type_table f dp :
  (rgba f = true -> etc2 f = true) ->
  encode_type f dp = format_table (etc2 f) (rgba f) (dxt1 f) (Alpha dp).
Proof.
  unfold encode_type, format_table.
  destruct (etc2 f), (rgba f), (Alpha dp), (dxt1 f); simpl; auto.
Qed.

Lemma benchmark_type_table f :
  (rgba f = true -> etc2 f = true) ->
  benchmark_type f = format_table (etc2 f) (rgba f) (dxt1 f) true.
Proof.
  unfold benchmark_type, format_table.
  destruct (etc2 f), (rgba f), (dxt1 f); simpl; auto; intros H;
    discriminate (H eq_refl).
Qed.

Lemma types_app a b : types (a ++ b) = types a ++ types b.
Proof. apply flat_map_app. Qed.

Lemma calls_app a b : calls (a ++ b) = calls a ++ calls b.
Proof. apply flat_map_app. Qed.

Lemma filter_flat_map {A} (p : Event -> bool) (g : A -> list Event) l :
  filter p (flat_map g l) = flat_map (fun i => filter p (g i)) l.
Proof.
  induction l as [|a l IH]; simpl; [reflexivity|].
  rewrite filter_app, IH. reflexivity.
Qed.

Lemma flat_map_nil {A B} (g : A -> list B) l :
  (forall i, g i = []) -> flat_map g l = [].
Proof.
  intros H. induction l as [|a l IH]; simpl; [reflexivity|].
  rewrite H, IH. reflexivity.
Qed.

Lemma flat_map_flat_map {A B C} (h : B -> list C) (g : A -> list B) l :
  flat_map h (flat_map g l) = flat_map (fun i => flat_map h (g i)) l.
Proof.
  induction l as [|a l IH]; simpl; [reflexivity|].
  rewrite flat_map_app, IH. reflexivity.
Qed.

Lemma types_part_units f dp ty i : types (part_units f dp ty i) = [].
Proof.
  unfold part_units.
  destruct (BlockData.type_eqb ty BlockData.Etc2_RGBA); [reflexivity|].
  destruct (separate_alpha f dp); reflexivity.
Qed.

Lemma types_queue_trace f dp : types (queue_trace f dp) = [].
Proof.
  unfold queue_trace, types. rewrite flat_map_flat_map.
  apply flat_map_nil. intros i. apply types_part_units.
Qed.

(** The formats a mode allocates buffers with. *)
Lemma types_mode_trace cl w f :
  types (mode_trace cl w f)
  = if viewMode f then []
    else if benchmark f then repeat (benchmark_type f) (Z.to_nat NumTasks)
    else repeat (encode_type f (dp_of cl w f))
                (if separate_alpha f (dp_of cl w f) then 2 else 1).
Proof.
  unfold mode_trace. destruct (benchmark f), (viewMode f); try reflexivity.
  unfold encode_trace, setup_trace.
  rewrite !types_app, types_queue_trace.
  destruct (separate_alpha f (dp_of cl w f)), (stats f); reflexivity.
Qed.

Lemma types_notice cl : types (notice cl) = [].
Proof.
  unfold notice. destruct (argc cl <? 3); [reflexivity|].
  destruct (parse_options _ _) as [f0|]; [|reflexivity].
  destruct (etc2 f0 && dither f0); reflexivity.
Qed.

Lemma calls_notice cl : calls (notice cl) = [].
Proof.
  unfold notice. destruct (argc cl <? 3); [reflexivity|].
  destruct (parse_options _ _) as [f0|]; [|reflexivity].
  destruct (etc2 f0 && dither f0); reflexivity.
Qed.

Lemma filter_notice cl p :
  p (Printf MsgDitheringDisabled) = false -> filter p (notice cl) = [].
Proof.
  intros Hp. unfold notice. destruct (argc cl <? 3); [reflexivity|].
  destruct (parse_options _ _) as [f0|]; [|reflexivity].
  destruct (etc2 f0 && dither f0); simpl; rewrite ?Hp; reflexivity.
Qed.

(** The formats a run allocates buffers with. *)
Lemma types_main cl w :
  types (fst (main cl w))
  = match configured cl with
    | Some f => types (mode_trace cl w f)
    | None => []
    end.
Proof.
  rewrite main_value. destruct (configured cl) as [f|]; simpl;
    change (flat_map type_of ?l) with (types l);
    rewrite types_app, types_notice; reflexivity.
Qed.

Lemma calls_main cl w :
  calls (fst (main cl w))
  = match configured cl with
    | Some f => calls (mode_trace cl w f)
    | None => []
    end.
Proof.
  rewrite main_value. destruct (configured cl) as [f|]; simpl;
    change (flat_map call_of ?l) with (calls l);
    rewrite calls_app, calls_notice; reflexivity.
Qed.

(** The dither flag of the calls of a mode is the local [dither], or false. *)
Lemma calls_mode_trace_dither cl w f c :
  In c (calls (mode_trace cl w f)) ->
  call_dither c = dither f \/ call_dither c = false.
Proof.
  unfold mode_trace.
  destruct (benchmark f), (viewMode f).
  - simpl. contradiction.
  - unfold calls. rewrite in_flat_map. intros (e & He & Hc).
    apply in_benchmark_encode_trace in He. destruct He as [He|He].
    + simpl in He. repeat (destruct He as [<-|He]; [contradiction|]). contradiction.
    + unfold benchmark_turn in He. simpl in He.
      repeat (destruct He as [<-|He]; simpl in Hc; try contradiction).
      destruct Hc as [<-|[]]. destruct (rgba f); simpl; auto.
  - simpl. contradiction.
  - unfold calls. rewrite in_flat_map. intros (e & He & Hc).
    apply in_encode_trace in He.
    destruct He as [He|[(i & Hi & He)|[->|(_ & He)]]].
    + unfold setup_trace in He. apply in_app_or in He.
      destruct He as [He|He].
      * simpl in He. repeat (destruct He as [<-|He]; [contradiction|]). contradiction.
      * destruct (separate_alpha _ _); simpl in He; [|contradiction].
        destruct He as [<-|[]]. contradiction.
    + unfold part_units in He.
      destruct (BlockData.type_eqb _ _).
      * destruct He as [<-|[]]. destruct Hc as [<-|[]]. simpl; auto.
      * destruct He as [<-|He].
        -- destruct Hc as [<-|[]]. simpl; auto.
        -- destruct (separate_alpha _ _); [|contradiction].
           destruct He as [<-|[]]. destruct Hc as [<-|[]]. simpl; auto.
    + contradiction.
    + simpl in He. repeat (destruct He as [<-|He]; [contradiction|]). contradiction.
Qed.

Lemma in_types b n s m ty t :
  In (NewBlockData b n s m ty) t -> In ty (types t).
Proof.
  intros H. unfold types. apply in_flat_map.
  exists (NewBlockData b n s m ty). split; [exact H|simpl; auto].
Qed.

(** A configured run selects an ETC2 format exactly when [etc2] is set. *)
Lemma mode_types_etc2 cl w f ty :
  configured cl = Some f ->
  In ty (types (mode_trace cl w f)) -> BlockData.is_etc2 ty = etc2 f.
Proof.
  intros Hc. rewrite types_mode_trace.
  destruct (viewMode f); [contradiction|].
  destruct (benchmark f); intros H; apply repeat_spec in H; subst.
  - apply benchmark_type_etc2, (configured_rgba_etc2 _ _ Hc).
  - apply encode_type_etc2.
Qed.

Lemma mode_calls_etc2 cl w f c :
  configured cl = Some f -> etc2 f = true ->
  In c (calls (mode_trace cl w f)) -> call_dither c = false.
Proof.
  intros Hc He H. apply calls_mode_trace_dither in H.
  rewrite (configured_etc2_dither _ _ Hc He) in H. tauto.
Qed.

(** The units of a run are those of the parts of the encode mode. *)
Lemma in_main_Queue cl w i b c :
  In (Queue i b c) (fst (main cl w)) ->
  exists f,
    configured cl = Some f /\ benchmark f = false /\ viewMode f = false /\
    0 <= i < Z.of_nat (Z.to_nat (NumberOfParts (dp_of cl w f))) /\
    In (Queue i b c)
       (part_units f (dp_of cl w f) (encode_type f (dp_of cl w f)) i).
Proof.
  intros H. apply main_event in H.
  destruct H as [H|[H|[[H _]|(f & Hc & H)]]]; try discriminate.
  exists f. split; [exact Hc|]. unfold mode_trace in H.
  destruct (benchmark f), (viewMode f).
  - simpl in H. repeat (destruct H as [H|H]; [discriminate|]). contradiction.
  - apply in_benchmark_encode_trace in H. unfold benchmark_turn in H. simpl in H.
    exfalso. repeat (destruct H as [H|H]; try discriminate; try contradiction).
  - simpl in H. repeat (destruct H as [H|H]; [discriminate|]). contradiction.
  - apply in_encode_trace in H.
    destruct H as [H|[(j & Hj & H)|[H|(_ & H)]]]; try discriminate.
    + exfalso. unfold setup_trace in H. apply in_app_or in H. destruct H as [H|H].
      * simpl in H. repeat (destruct H as [H|H]; [discriminate|]). contradiction.
      * destruct (separate_alpha _ _); simpl in H; [|contradiction].
        destruct H as [H|[]]; discriminate.
    + assert (j = i) as ->.
      { unfold part_units in H. destruct (BlockData.type_eqb _ _).
        - destruct H as [H|[]]; inversion H; reflexivity.
        - destruct H as [H|H]; [inversion H; reflexivity|].
          destruct (separate_alpha _ _); [|contradiction].
          destruct H as [H|[]]; inversion H; reflexivity. }
      auto.
    + exfalso. simpl in H. repeat (destruct H as [H|H]; [discriminate|]). contradiction.
Qed.

(** * The claims *)


(** C2. In a run that selects an ETC2 format, no call of [Process], direct
    or queued, is given a true dither flag. *)
Theorem no_dithering_in_ETC2 cl w b n s m ty c :
  In (NewBlockData b n s m ty) (fst (main cl w)) ->
  BlockData.is_etc2 ty = true ->
  In c (calls (fst (main cl w))) ->
  call_dither c = false.
Proof.
  intros Hty Hetc2. apply in_types in Hty. revert Hty.
  rewrite types_main, calls_main.
  destruct (configured cl) as [f|] eqn:Hc; [|contradiction].
  intros Hty. apply (mode_calls_etc2 _ _ _ _ Hc).
  rewrite <- (mode_types_etc2 _ _ _ _ Hc Hty). exact Hetc2.
Qed.

(** C10. Every unit queued for the separate alpha buffer calls [Process] on
    the alpha channel with the dither flag false. *)
Theorem alpha_units_never_dithered cl w i c :
  In (Queue i bda c) (fst (main cl w)) ->
  exists psrc n poffset pwidth,
    c = Process psrc n poffset pwidth Channels.Alpha false.
Proof.
  intros H. apply in_main_Queue in H.
  destruct H as (f & _ & _ & _ & _ & H).
  unfold part_units in H. destruct (BlockData.type_eqb _ _).
  - destruct H as [H|[]]; discriminate.
  - destruct H as [H|H]; [discriminate|].
    destruct (separate_alpha _ _); [|contradiction].
    destruct H as [H|[]]. inversion H. eauto.
Qed.

(** ** The encode mode *)

Lemma filter_part_units_Queue f dp ty i :
  filter is_Queue (part_units f dp ty i) = part_units f dp ty i.
Proof.
  unfold part_units. destruct (BlockData.type_eqb _ _); [reflexivity|].
  destruct (separate_alpha f dp); reflexivity.
Qed.

Lemma filter_part_units_other p f dp ty i :
  (forall j b c, p (Queue j b c) = false) ->
  filter p (part_units f dp ty i) = [].
Proof.
  intros Hp. unfold part_units. destruct (BlockData.type_eqb _ _); simpl.
  - rewrite Hp. reflexivity.
  - destruct (separate_alpha f dp); simpl; rewrite !Hp; reflexivity.
Qed.

Lemma filter_queue_trace_Queue f dp :
  filter is_Queue (queue_trace f dp) = queue_trace f dp.
Proof.
  unfold queue_trace. rewrite filter_flat_map.
  apply flat_map_ext. intros i. apply filter_part_units_Queue.
Qed.

Lemma filter_queue_trace_other p f dp :
  (forall j b c, p (Queue j b c) = false) ->
  filter p (queue_trace f dp) = [].
Proof.
  intros Hp. unfold queue_trace. rewrite filter_flat_map.
  apply flat_map_nil. intros i. apply filter_part_units_other, Hp.
Qed.

Lemma filter_setup_trace p cpus f dp input output :
  (forall a b c, p (NewDataProvider a b c) = false) ->
  (forall a, p (NewTaskDispatch a) = false) ->
  (forall a b c d e, p (NewBlockData a b c d e) = false) ->
  filter p (setup_trace cpus f dp input output) = [].
Proof.
  intros H1 H2 H3. unfold setup_trace.
  destruct (separate_alpha f dp); simpl; rewrite H1, H2, !H3; reflexivity.
Qed.

(** With a separate alpha buffer the format is not ETC2_RGBA. *)
Lemma separate_alpha_not_RGBA f dp :
  separate_alpha f dp = true ->
  BlockData.type_eqb (encode_type f dp) BlockData.Etc2_RGBA = false.
Proof.
  unfold separate_alpha, encode_type.
  destruct (alpha f), (Alpha dp), (rgba f), (etc2 f), (dxt1 f);
    simpl; intros H; try discriminate; reflexivity.
Qed.

Lemma separate_alpha_iff f dp :
  separate_alpha f dp = true <->
  alpha f <> None /\ Alpha dp = true /\ rgba f = false.
Proof.
  unfold separate_alpha. destruct (alpha f), (Alpha dp), (rgba f); simpl;
    split; intros H; try discriminate; try (repeat split; congruence);
    destruct H as (H1 & H2 & H3); congruence.
Qed.

Lemma length_part_units f dp i :
  List.length (part_units f dp (encode_type f dp) i) = units_per_part f dp.
Proof.
  unfold part_units, units_per_part.
  destruct (separate_alpha f dp) eqn:E.
  - rewrite (separate_alpha_not_RGBA _ _ E). reflexivity.
  - destruct (BlockData.type_eqb _ _); reflexivity.
Qed.

Lemma length_flat_map_const {A B} (g : A -> list B) k l :
  (forall i, List.length (g i) = k) ->
  List.length (flat_map g l) = (List.length l * k)%nat.
Proof.
  intros H. induction l as [|a l IH]; simpl; [reflexivity|].
  rewrite length_app, H, IH. reflexivity.
Qed.

Lemma length_queue_trace f dp :
  List.length (queue_trace f dp)
  = (Z.to_nat (NumberOfParts dp) * units_per_part f dp)%nat.
Proof.
  unfold queue_trace.
  rewrite (length_flat_map_const _ (units_per_part f dp)), length_iota;
    [reflexivity|]. intros i. apply length_part_units.
Qed.

Lemma queue_trace_separate_alpha f dp :
  separate_alpha f dp = true ->
  queue_trace f dp
  = flat_map (color_and_alpha_units f dp) (iota 0 (Z.to_nat (NumberOfParts dp))).
Proof.
  intros E. unfold queue_trace. apply flat_map_ext. intros i.
  unfold part_units, color_and_alpha_units.
  rewrite (separate_alpha_not_RGBA _ _ E), E. reflexivity.
Qed.

Lemma filter_cons_false {A} (p : A -> bool) a l :
  p a = false -> filter p (a :: l) = filter p l.
Proof. intros H. simpl. rewrite H. reflexivity. Qed.

Lemma filter_measure p f dp :
  p (Decode bd) = false ->
  (forall a b, p (CalcMSE3 a b) = false) ->
  (forall m, p (Printf m) = false) ->
  filter p (if stats f then measure_trace dp else []) = [].
Proof.
  intros H1 H2 H3. destruct (stats f); simpl; rewrite ?H1, ?H2, ?H3; reflexivity.
Qed.

(** The trace of a run of the encode mode. *)
Lemma main_encode cl w f :
  configured cl = Some f -> benchmark f = false -> viewMode f = false ->
  fst (main cl w)
  = (AddCallback :: notice cl
       ++ setup_trace (CPUCores w) f (dp_of cl w f) (input_of cl) (arg cl (optind cl + 1))
       ++ queue_trace f (dp_of cl w f))
    ++ Sync :: (if stats f then measure_trace (dp_of cl w f) else []).
Proof.
  intros Hc Hb Hv. rewrite (main_configured _ _ _ Hc). unfold mode_trace.
  rewrite Hb, Hv. unfold encode_trace. cbn [fst].
  cbn [app]. f_equal. rewrite <- !app_assoc. reflexivity.
Qed.

Lemma queued_main_encode cl w f :
  configured cl = Some f -> benchmark f = false -> viewMode f = false ->
  queued (fst (main cl w)) = queue_trace f (dp_of cl w f).
Proof.
  intros Hc Hb Hv. rewrite (main_encode _ _ _ Hc Hb Hv). unfold queued.
  rewrite filter_app, !filter_cons_false, !filter_app by reflexivity.
  rewrite filter_notice, filter_setup_trace, filter_queue_trace_Queue,
    filter_measure by reflexivity.
  rewrite app_nil_r. reflexivity.
Qed.

(** The alpha buffer is allocated exactly when line 243 says so. *)
Lemma alpha_buffer_iff cl w f :
  configured cl = Some f -> benchmark f = false -> viewMode f = false ->
  (exists n s m ty, In (NewBlockData bda n s m ty) (fst (main cl w))) <->
  separate_alpha f (dp_of cl w f) = true.
Proof.
  intros Hc Hb Hv. split.
  - intros (n & s & m & ty & H). apply main_event in H.
    destruct H as [H|[H|[[H _]|(f' & Hc' & H)]]]; try discriminate.
    rewrite Hc in Hc'; inversion Hc'; subst f'.
    unfold mode_trace in H. rewrite Hb, Hv in H.
    apply in_encode_trace in H.
    destruct H as [H|[(j & Hj & H)|[H|(_ & H)]]]; try discriminate.
    + unfold setup_trace in H. apply in_app_or in H. destruct H as [H|H].
      * simpl in H. repeat (destruct H as [H|H]; [discriminate|]). contradiction.
      * destruct (separate_alpha _ _); [reflexivity|contradiction].
    + exfalso. unfold part_units in H. destruct (BlockData.type_eqb _ _).
      * destruct H as [H|[]]; discriminate.
      * destruct H as [H|H]; [discriminate|].
        destruct (separate_alpha _ _); [|contradiction].
        destruct H as [H|[]]; discriminate.
    + exfalso. simpl in H. repeat (destruct H as [H|H]; [discriminate|]). contradiction.
  - intros E. exists (alpha f), (Size (dp_of cl w f)), (mipmap f),
      (encode_type f (dp_of cl w f)).
    rewrite (main_encode _ _ _ Hc Hb Hv). apply in_or_app. left.
    right. apply in_or_app. right. apply in_or_app. left.
    unfold setup_trace. apply in_or_app. right. rewrite E. left. reflexivity.
Qed.

(** C3. In the encode mode the alpha buffer [bda] is allocated if and only
    if an alpha path is given, the source has an alpha channel and [rgba] is
    not set.  When it is, the units queued are one for the colour buffer and
    one for the alpha buffer per part, 2 * NumberOfParts() in all.  With
    [rgba] set nothing concerns the alpha buffer. *)
Theorem separate_alpha_buffer cl w f :
  configured cl = Some f -> benchmark f = false -> viewMode f = false ->
  let dp := dp_of cl w f in
  let t := fst (main cl w) in
  ((exists n s m ty, In (NewBlockData bda n s m ty) t) <->
   (alpha f <> None /\ Alpha dp = true /\ rgba f = false)) /\
  ((exists n s m ty, In (NewBlockData bda n s m ty) t) ->
   queued t
   = flat_map (color_and_alpha_units f dp) (iota 0 (Z.to_nat (NumberOfParts dp))) /\
   (0 <= NumberOfParts dp ->
    Z.of_nat (List.length (queued t)) = 2 * NumberOfParts dp)) /\
  (rgba f = true -> forall e, In e t -> on_bda e = false).
Proof.
  intros Hc Hb Hv dp t. subst dp t.
  pose proof (alpha_buffer_iff _ w _ Hc Hb Hv) as Hiff.
  split; [|split].
  - rewrite Hiff. apply separate_alpha_iff.
  - intros Hex. apply Hiff in Hex.
    rewrite (queued_main_encode _ _ _ Hc Hb Hv). split.
    + apply queue_trace_separate_alpha, Hex.
    + intros Hnum. rewrite length_queue_trace. unfold units_per_part.
      rewrite Hex. lia.
  - intros Hr.
    assert (separate_alpha f (dp_of cl w f) = false) as E.
    { unfold separate_alpha. rewrite Hr. apply andb_false_r. }
    intros e H. apply main_event in H.
    destruct H as [->|[->|[[-> _]|(f' & Hc' & H)]]]; try reflexivity.
    rewrite Hc in Hc'; inversion Hc'; subst f'.
    unfold mode_trace in H. rewrite Hb, Hv in H.
    apply in_encode_trace in H.
    destruct H as [H|[(j & Hj & H)|[->|(_ & H)]]]; try reflexivity.
    + unfold setup_trace in H. rewrite E in H. simpl in H.
      repeat (destruct H as [<-|H]; [reflexivity|]). contradiction.
    + unfold part_units in H. rewrite E in H.
      destruct (BlockData.type_eqb _ _); simpl in H;
        repeat (destruct H as [<-|H]; [reflexivity|]); contradiction.
    + simpl in H. repeat (destruct H as [<-|H]; [reflexivity|]). contradiction.
Qed.

(** C7. In the encode mode the trace holds [Sync] exactly once; every unit
    is queued before it, NumberOfParts() * (1 or 2) of them, and every
    [Decode] comes after it. *)
Theorem sync_once_after_all_units cl w f :
  configured cl = Some f -> benchmark f = false -> viewMode f = false ->
  let dp := dp_of cl w f in
  exists pre post,
    fst (main cl w) = pre ++ Sync :: post /\
    filter is_Sync pre = [] /\ filter is_Sync post = [] /\
    filter is_Queue post = [] /\ filter is_Decode pre = [] /\
    List.length (filter is_Queue pre)
    = (Z.to_nat (NumberOfParts dp) * units_per_part f dp)%nat /\
    (units_per_part f dp = 1 \/ units_per_part f dp = 2)%nat.
Proof.
  intros Hc Hb Hv dp. subst dp.
  eexists _, _. split; [apply (main_encode _ _ _ Hc Hb Hv)|].
  repeat split.
  - rewrite !filter_cons_false, !filter_app by reflexivity.
    rewrite filter_notice, filter_setup_trace, filter_queue_trace_other by reflexivity.
    reflexivity.
  - apply filter_measure; reflexivity.
  - apply filter_measure; reflexivity.
  - rewrite !filter_cons_false, !filter_app by reflexivity.
    rewrite filter_notice, filter_setup_trace, filter_queue_trace_other by reflexivity.
    reflexivity.
  - rewrite !filter_cons_false, !filter_app by reflexivity.
    rewrite filter_notice, filter_setup_trace, filter_queue_trace_Queue by reflexivity.
    apply length_queue_trace.
  - unfold units_per_part. destruct (separate_alpha _ _); auto.
Qed.

(** C8. With [-s], what follows [Sync] is: the colour buffer is decoded, the
    error of the decoded image against the pixels of the source is computed,
    and the two values printed are sqrt( mse ) and
    20 * log10( 255 ) - 10 * log10( mse ), whatever the float operations
    are. *)
Theorem quality_statistics cl w f :
  configured cl = Some f -> benchmark f = false -> viewMode f = false ->
  stats f = true ->
  exists pre rmse psnr,
    fst (main cl w)
    = pre ++ [Sync; Decode bd; CalcMSE3 (ImageData (dp_of cl w f)) bd;
              Printf MsgRGBData; Printf (MsgRMSE rmse); Printf (MsgPSNR psnr)] /\
    filter is_Sync pre = [] /\ filter is_Decode pre = [] /\
    forall F (ops : FloatOps F) (mse : F),
      eval ops mse rmse = fsqrt ops mse /\
      eval ops mse psnr
      = fsub ops (fmul ops (of_int ops 20) (flog10 ops (of_int ops 255)))
                 (fmul ops (of_int ops 10) (flog10 ops mse)).
Proof.
  intros Hc Hb Hv Hs.
  eexists _, (Fsqrt Fmse), PSNR. split; [|split; [|split]].
  - rewrite (main_encode _ _ _ Hc Hb Hv), Hs. reflexivity.
  - rewrite !filter_cons_false, !filter_app by reflexivity.
    rewrite filter_notice, filter_setup_trace, filter_queue_trace_other by reflexivity.
    reflexivity.
  - rewrite !filter_cons_false, !filter_app by reflexivity.
    rewrite filter_notice, filter_setup_trace, filter_queue_trace_other by reflexivity.
    reflexivity.
  - intros F ops mse. split; reflexivity.
Qed.

(** C4, as the code has it. Every queued unit is given the block count
    (width / 4) * lines of its part, computed in [unsigned int].  For a
    width that is a multiple of 4, and when the product does not overflow,
    that is the number of 4x4 blocks in 4 * lines rows of pixels; for a part
    that is not empty it is more than (width * lines) / 16. *)
Theorem queued_block_count cl w i b c :
  In (Queue i b c) (fst (main cl w)) ->
  exists f,
    configured cl = Some f /\
    let part := NextPart (dp_of cl w f) (Z.to_nat i) in
    call_blockCount c = (Z.quot (width part) 4 * lines part) mod 2 ^ 32 /\
    (0 <= width part -> 0 <= lines part -> width part mod 4 = 0 ->
     Z.quot (width part) 4 * lines part < 2 ^ 32 ->
     16 * call_blockCount c = width part * (4 * lines part) /\
     (0 < width part -> 0 < lines part ->
      pixel_blocks part < call_blockCount c)).
Proof.
  intros H. apply in_main_Queue in H.
  destruct H as (f & Hc & _ & _ & _ & H).
  exists f. split; [exact Hc|]. cbv zeta.
  set (part := NextPart (dp_of cl w f) (Z.to_nat i)) in *.
  assert (call_blockCount c = blockCount part) as ->.
  { unfold part_units in H. fold part in H. destruct (BlockData.type_eqb _ _).
    - destruct H as [H|[]]; inversion H; reflexivity.
    - destruct H as [H|H]; [inversion H; reflexivity|].
      destruct (separate_alpha _ _); [|contradiction].
      destruct H as [H|[]]; inversion H; reflexivity. }
  unfold blockCount, uint32. split; [reflexivity|].
  intros Hw Hl Hm Hsmall.
  rewrite Z.quot_div_nonneg in * by lia.
  pose proof (Z.div_mod (width part) 4 ltac:(lia)) as Hd.
  rewrite Hm in Hd.
  assert (0 <= width part / 4) as Hq by (apply Z.div_pos; lia).
  rewrite Z.mod_small by (split; [apply Z.mul_nonneg_nonneg; lia|exact Hsmall]).
  split; [nia|].
  intros Hw' Hl'. unfold pixel_blocks.
  apply Z.div_lt_upper_bound; [lia|]. nia.
Qed.

Lemma usage_not_in_mode cl w f : ~ In Usage (mode_trace cl w f).
Proof.
  unfold mode_trace. destruct (benchmark f), (viewMode f); intros H.
  - simpl in H. repeat (destruct H as [H|H]; [discriminate|]). contradiction.
  - apply in_benchmark_encode_trace in H. unfold benchmark_turn in H.
    simpl in H. repeat (destruct H as [H|H]; try discriminate; try contradiction).
  - simpl in H. repeat (destruct H as [H|H]; [discriminate|]). contradiction.
  - apply in_encode_trace in H.
    destruct H as [H|[(j & _ & H)|[H|(_ & H)]]]; try discriminate.
    + unfold setup_trace in H. destruct (separate_alpha _ _); simpl in H;
        repeat (destruct H as [H|H]; [discriminate|]); contradiction.
    + unfold part_units in H.
      destruct (BlockData.type_eqb _ _); [|destruct (separate_alpha _ _)];
        simpl in H; repeat (destruct H as [H|H]; [discriminate|]); contradiction.
    + simpl in H. repeat (destruct H as [H|H]; [discriminate|]). contradiction.
Qed.

(** C1, as the code has it. A run that encodes gives every buffer the format
    of the table; the encode mode reads the table with the alpha channel of
    the source, the benchmark reads it as if the source always had one. *)
Theorem format_selection cl w f :
  configured cl = Some f -> viewMode f = false ->
  let ty := format_table (etc2 f) (rgba f) (dxt1 f)
                         (benchmark f || Alpha (dp_of cl w f)) in
  (exists n s m, In (NewBlockData bd n s m ty) (fst (main cl w))) /\
  (forall b n s m ty', In (NewBlockData b n s m ty') (fst (main cl w)) -> ty' = ty).
Proof.
  intros Hc Hv ty.
  pose proof (configured_rgba_etc2 _ _ Hc) as Hinv.
  assert (ty = if benchmark f then benchmark_type f
               else encode_type f (dp_of cl w f)) as Hty.
  { subst ty. destruct (benchmark f); simpl.
    - symmetry. apply benchmark_type_table, Hinv.
    - symmetry. apply encode_type_table, Hinv. }
  split.
  - rewrite Hty, (main_configured _ _ _ Hc). unfold mode_trace. rewrite Hv.
    destruct (benchmark f).
    + exists None, (BitmapSize (load_Bitmap w (input_of cl) (negb (dxt1 f)))), false.
      right. apply in_or_app. right. unfold benchmark_encode_trace.
      apply in_or_app. right. apply in_or_app. left.
      apply in_flat_map. exists 0. split; [left; reflexivity|].
      left. reflexivity.
    + exists (Some (arg cl (optind cl + 1))), (Size (dp_of cl w f)), (mipmap f).
      right. apply in_or_app. right. unfold encode_trace, setup_trace.
      apply in_or_app. left. apply in_or_app. left.
      right. right. left. reflexivity.
  - intros b n s m ty' H. apply in_types in H.
    rewrite types_main, Hc, types_mode_trace, Hv in H.
    rewrite Hty. destruct (benchmark f); apply repeat_spec in H; exact H.
Qed.

(** C5, as the code has it. The configuration errors are the malformed
    command lines: the run prints the usage and returns 1, with no buffer
    allocated and no call of the codec made or queued.  Any other run
    returns 0; RGBA asked of a source without alpha is encoded as ETC2_RGB,
    one unit per part. *)
Theorem configuration_errors cl w :
  (configured cl = None <->
   argc cl < 3 \/ parse_options (getopt_long cl) initial_flags = None \/
   exists f0, parse_options (getopt_long cl) initial_flags = Some f0 /\
              argc cl - optind cl < (if benchmark f0 then 1 else 2)) /\
  (configured cl = None ->
   snd (main cl w) = 1 /\ In Usage (fst (main cl w)) /\
   types (fst (main cl w)) = [] /\ calls (fst (main cl w)) = []) /\
  (forall f, configured cl = Some f ->
   snd (main cl w) = 0 /\ ~ In Usage (fst (main cl w)) /\
   (benchmark f = false -> viewMode f = false ->
    rgba f = true -> Alpha (dp_of cl w f) = false ->
    types (fst (main cl w)) = [BlockData.Etc2_RGB] /\
    List.length (queued (fst (main cl w)))
    = Z.to_nat (NumberOfParts (dp_of cl w f)))).
Proof.
  split; [|split].
  - unfold configured. destruct (Z.ltb_spec (argc cl) 3) as [H3|H3].
    + split; auto.
    + destruct (parse_options (getopt_long cl) initial_flags) as [f0|].
      * destruct (settled_fields f0) as (_ & _ & Hb & _). rewrite Hb.
        destruct (Z.ltb_spec (argc cl - optind cl) (if benchmark f0 then 1 else 2)) as [H|H].
        -- split; [|reflexivity]. intros _. right; right. exists f0; auto.
        -- split; [discriminate|]. intros [H'|[H'|(f1 & H1 & H')]]; try lia; try discriminate.
           inversion H1; subst. lia.
      * split; auto.
  - intros Hc. rewrite types_main, calls_main, main_value, Hc. simpl.
    repeat split. right. apply in_or_app. right. left. reflexivity.
  - intros f Hc. split; [|split].
    + rewrite (main_configured _ _ _ Hc). reflexivity.
    + rewrite (main_configured _ _ _ Hc). cbn [fst].
      intros [H|H]; [discriminate|]. apply in_app_or in H. destruct H as [H|H].
      * apply in_notice in H. discriminate.
      * exact (usage_not_in_mode _ _ _ H).
    + intros Hb Hv Hr Ha.
      assert (separate_alpha f (dp_of cl w f) = false) as E.
      { unfold separate_alpha. rewrite Hr. apply andb_false_r. }
      split.
      * rewrite types_main, Hc, types_mode_trace, Hv, Hb, E.
        unfold encode_type. rewrite (configured_rgba_etc2 _ _ Hc Hr), Hr, Ha.
        reflexivity.
      * rewrite (queued_main_encode _ _ _ Hc Hb Hv), length_queue_trace.
        unfold units_per_part. rewrite E. lia.
Qed.

Lemma Buffer_eqb_eq a b : Buffer_eqb a b = true <-> a = b.
Proof. destruct a, b; simpl; split; congruence. Qed.

(** ** Machine integers *)

(** The block count of a part wraps around at 2^32. *)
Example blockCount_wraps :
  blockCount (mk_DataPart 0 262144 65536 0) = 0 /\
  blockCount (mk_DataPart 0 262144 65537 0) = 65536.
Proof. split; reflexivity. Qed.

(** So does the pixel count of the benchmark: a bitmap of 65536 by 65536 is
    processed as 0 blocks. *)
Example benchmark_blocks_wrap :
  Z.quot (int32 (65536 * 65536)) 16 = 0 /\
  Z.quot (int32 (46341 * 46341)) 16 = -134217438.
Proof. split; reflexivity. Qed.

(** ** The claims on the sample runs *)

Ltac in_trace := vm_compute; repeat (first [left; reflexivity | right]).

(** C1 fails in the benchmark: with [--rgba] and a source without alpha the
    buffers are ETC2_RGBA, where the table says ETC2_RGB. *)
Lemma format_selection_benchmark_counterexample :
  let f := Sample.flags false false true true true None in
  configured Sample.benchmark_rgba = Some f /\
  viewMode f = false /\
  Alpha (dp_of Sample.benchmark_rgba (Sample.world false) f) = false /\
  ~ follows_table Sample.benchmark_rgba (Sample.world false) f.
Proof.
  cbv zeta. repeat split.
  intros H.
  specialize (H bd None (mk_v2i 8 32) false BlockData.Etc2_RGBA).
  assert (BlockData.Etc2_RGBA = BlockData.Etc2_RGB) as E; [|discriminate E].
  apply H. in_trace.
Qed.

(** The table on [etcpak --rgba in.png out.pvr], source without alpha. *)
Lemma format_selection_witness :
  (exists n s m,
     In (NewBlockData bd n s m BlockData.Etc2_RGB)
        (fst (main Sample.rgba_plain (Sample.world false)))) /\
  (forall b n s m ty',
     In (NewBlockData b n s m ty')
        (fst (main Sample.rgba_plain (Sample.world false))) ->
     ty' = BlockData.Etc2_RGB).
Proof.
  exact (format_selection Sample.rgba_plain (Sample.world false)
           (Sample.flags false false false true true None) eq_refl eq_refl).
Defined.

(** [-d --etc2]: the colour unit is queued without dithering. *)
Lemma no_dithering_in_ETC2_witness :
  In (NewBlockData bd (Some "out.pvr") (mk_v2i 8 32) false BlockData.Etc2_RGB)
     (fst (main Sample.etc2_dither_alpha (Sample.world true))) /\
  In (Process 0 8 0 8 Channels.RGB false)
     (calls (fst (main Sample.etc2_dither_alpha (Sample.world true)))) /\
  call_dither (Process 0 8 0 8 Channels.RGB false) = false.
Proof.
  assert (In (NewBlockData bd (Some "out.pvr") (mk_v2i 8 32) false BlockData.Etc2_RGB)
             (fst (main Sample.etc2_dither_alpha (Sample.world true)))) as H1
    by in_trace.
  assert (In (Process 0 8 0 8 Channels.RGB false)
             (calls (fst (main Sample.etc2_dither_alpha (Sample.world true))))) as H2
    by in_trace.
  split; [exact H1|split; [exact H2|]].
  exact (no_dithering_in_ETC2 _ _ _ _ _ _ _ _ H1 eq_refl H2).
Defined.

(** [-d -a alpha.pvr] on a source with alpha. *)
Lemma separate_alpha_buffer_witness :
  let cl := Sample.dither_alpha in
  let w := Sample.world true in
  let f := Sample.flags true false false false false (Some "alpha.pvr") in
  ((exists n s m ty, In (NewBlockData bda n s m ty) (fst (main cl w))) <->
   (alpha f <> None /\ Alpha (dp_of cl w f) = true /\ rgba f = false)) /\
  ((exists n s m ty, In (NewBlockData bda n s m ty) (fst (main cl w))) ->
   queued (fst (main cl w))
   = flat_map (color_and_alpha_units f (dp_of cl w f))
              (iota 0 (Z.to_nat (NumberOfParts (dp_of cl w f)))) /\
   (0 <= NumberOfParts (dp_of cl w f) ->
    Z.of_nat (List.length (queued (fst (main cl w))))
    = 2 * NumberOfParts (dp_of cl w f))) /\
  (rgba f = true -> forall e, In e (fst (main cl w)) -> on_bda e = false).
Proof.
  exact (separate_alpha_buffer Sample.dither_alpha (Sample.world true)
           (Sample.flags true false false false false (Some "alpha.pvr"))
           eq_refl eq_refl eq_refl).
Defined.

(** C4 fails as stated: a part 8 pixels wide with [lines] = 4 is queued with
    8 blocks, and (8 x 4) / 16 is 2. *)
Lemma block_count_counterexample :
  let f := Sample.flags false false false false false None in
  configured Sample.plain = Some f /\
  In (Queue 0 bd (Process 0 8 0 8 Channels.RGB false))
     (fst (main Sample.plain (Sample.world false))) /\
  pixel_blocks (NextPart (dp_of Sample.plain (Sample.world false) f) 0) = 2 /\
  ~ counts_pixel_blocks Sample.plain (Sample.world false) f.
Proof.
  cbv zeta.
  assert (In (Queue 0 bd (Process 0 8 0 8 Channels.RGB false))
             (fst (main Sample.plain (Sample.world false)))) as H1 by in_trace.
  repeat split; [exact H1|].
  intros H. specialize (H _ _ _ H1). vm_compute in H. discriminate H.
Qed.

(** The second part of the plain run: 8 pixels wide, [lines] = 4, queued
    with 8 blocks. *)
Lemma queued_block_count_witness :
  let part := Sample.part 1 in
  let c := Process 32 8 64 8 Channels.RGB false in
  call_blockCount c = (Z.quot (width part) 4 * lines part) mod 2 ^ 32 /\
  16 * call_blockCount c = width part * (4 * lines part) /\
  pixel_blocks part < call_blockCount c.
Proof.
  cbv zeta.
  destruct (queued_block_count Sample.plain (Sample.world false) 1 bd
              (Process 32 8 64 8 Channels.RGB false) ltac:(in_trace))
    as (f & _ & H1 & H2).
  split; [exact H1|].
  destruct (H2 ltac:(cbn; lia) ltac:(cbn; lia) eq_refl eq_refl) as (H3 & H4).
  split; [exact H3|]. apply H4; reflexivity.
Defined.

(** C5 fails as stated: [--rgba] on a source without alpha is not reported;
    the run allocates the colour buffer, queues its units and returns 0. *)
Lemma missing_alpha_counterexample :
  let f := Sample.flags false false false true true None in
  configured Sample.rgba_plain = Some f /\
  main Sample.rgba_plain (Sample.world false)
  = ([AddCallback; NewDataProvider "in.png" false true; NewTaskDispatch 4;
      NewBlockData bd (Some "out.pvr") (mk_v2i 8 32) false BlockData.Etc2_RGB;
      Queue 0 bd (Process 0 8 0 8 Channels.RGB false);
      Queue 1 bd (Process 32 8 64 8 Channels.RGB false); Sync], 0) /\
  ~ reports_missing_alpha Sample.rgba_plain (Sample.world false) f.
Proof.
  cbv zeta. repeat split.
  intros H. destruct (H eq_refl eq_refl) as (H1 & _). apply H1. reflexivity.
Qed.

(** A missing output, and [--rgba] on a source without alpha. *)
Lemma configuration_errors_witness :
  (snd (main Sample.no_output (Sample.world false)) = 1 /\
   In Usage (fst (main Sample.no_output (Sample.world false))) /\
   types (fst (main Sample.no_output (Sample.world false))) = [] /\
   calls (fst (main Sample.no_output (Sample.world false))) = []) /\
  (snd (main Sample.rgba_plain (Sample.world false)) = 0 /\
   types (fst (main Sample.rgba_plain (Sample.world false))) = [BlockData.Etc2_RGB] /\
   List.length (queued (fst (main Sample.rgba_plain (Sample.world false)))) = 2%nat).
Proof.
  split.
  - exact (proj1 (proj2 (configuration_errors Sample.no_output (Sample.world false)))
             eq_refl).
  - destruct (proj2 (proj2 (configuration_errors Sample.rgba_plain (Sample.world false)))
                (Sample.flags false false false true true None) eq_refl)
      as (H0 & _ & H).
    destruct (H eq_refl eq_refl eq_refl eq_refl) as (H1 & H2).
    split; [exact H0|split; [exact H1|exact H2]].
Defined.

(** Two parts, two buffers: four units before the one [Sync]. *)
Lemma sync_once_after_all_units_witness :
  let cl := Sample.etc2_dither_alpha in
  let w := Sample.world true in
  exists pre post,
    fst (main cl w) = pre ++ Sync :: post /\
    filter is_Sync pre = [] /\ filter is_Sync post = [] /\
    filter is_Queue post = [] /\ filter is_Decode pre = [] /\
    List.length (filter is_Queue pre) = (2 * 2)%nat /\
    (2 = 1 \/ 2 = 2)%nat.
Proof.
  exact (sync_once_after_all_units Sample.etc2_dither_alpha (Sample.world true)
           (Sample.flags false true false true false (Some "alpha.pvr"))
           eq_refl eq_refl eq_refl).
Defined.

(** [-s] on the sample image. *)
Lemma quality_statistics_witness :
  let cl := Sample.etc2_dither_alpha in
  let w := Sample.world true in
  exists pre rmse psnr,
    fst (main cl w)
    = pre ++ [Sync; Decode bd; CalcMSE3 0 bd;
              Printf MsgRGBData; Printf (MsgRMSE rmse); Printf (MsgPSNR psnr)] /\
    filter is_Sync pre = [] /\ filter is_Decode pre = [] /\
    forall F (ops : FloatOps F) (mse : F),
      eval ops mse rmse = fsqrt ops mse /\
      eval ops mse psnr
      = fsub ops (fmul ops (of_int ops 20) (flog10 ops (of_int ops 255)))
                 (fmul ops (of_int ops 10) (flog10 ops mse)).
Proof.
  exact (quality_statistics Sample.etc2_dither_alpha (Sample.world true)
           (Sample.flags false true false true false (Some "alpha.pvr"))
           eq_refl eq_refl eq_refl eq_refl).
Defined.


(** [-d -a alpha.pvr]: the alpha unit of the second part. *)
Lemma alpha_units_never_dithered_witness :
  exists psrc n poffset pwidth,
    Process 32 8 64 8 Channels.Alpha false
    = Process psrc n poffset pwidth Channels.Alpha false.
Proof.
  apply (alpha_units_never_dithered Sample.dither_alpha (Sample.world true) 1).
  in_trace.
Defined.

(** * More of [main] *)

(** ** The options as a whole *)

Lemma has_option_cons c c' a rs :
  has_option c ((c', a) :: rs) = (c' =? c) || has_option c rs.
Proof. reflexivity. Qed.

(** The loop of lines 80-118 from any locals: it fails on the first ['?'],
    and otherwise only sets flags. *)
Lemma parse_options_from rs : forall f,
  parse_options rs f
  = if has_option (chr "?") rs then None
    else Some (mk_Flags
                 (viewMode f || has_option (chr "v") rs)
                 (stats f || has_option (chr "s") rs)
                 (benchmark f || has_option (chr "b") rs)
                 (mipmap f || has_option (chr "m") rs)
                 (dither f || has_option (chr "d") rs)
                 (etc2 f || (has_option OptEtc2 rs || has_option OptRgba rs))
                 (rgba f || has_option OptRgba rs)
                 (dxt1 f || has_option OptDxt1 rs)
                 (last_optarg (chr "a") rs (alpha f))).
Proof.
  induction rs as [|[c a] rs IH]; intros f.
  - destruct f as [v s b m d e r x0 al]. simpl. rewrite !orb_false_r. reflexivity.
  - destruct f as [v s b m d e r x0 al].
    cbn [parse_options]. rewrite !has_option_cons. cbn [last_optarg].
    unfold option_case.
    repeat match goal with
           | |- context [c =? ?k] =>
               destruct (Z.eqb_spec c k) as [->|?];
               [cbn; rewrite ?IH; cbn;
                try match goal with
                    | |- context [if ?t then None else _] => destruct t
                    end;
                rewrite ?orb_true_r, ?orb_false_r; reflexivity|]
           end.
    rewrite IH. cbn.
    match goal with
    | |- context [if ?t then None else _] => destruct t
    end; reflexivity.
Qed.

(** X1. The loop over the options fails exactly when [getopt_long] answers
    ['?'] at some point; otherwise each flag is set exactly when its option
    occurs ([etc2] also by [--rgba]), however often and wherever, and the
    alpha path is the argument of the last [-a]. *)
Theorem parse_options_spec rs :
  parse_options rs initial_flags
  = if has_option (chr "?") rs then None else Some (options_flags rs).
Proof. rewrite parse_options_from. reflexivity. Qed.

Lemma has_option_Permutation c rs rs' :
  Permutation rs rs' -> has_option c rs = has_option c rs'.
Proof.
  induction 1 as [|[c1 a1] l l' _ IH|[c1 a1] [c2 a2] l|l1 l2 l3 _ IH1 _ IH2].
  - reflexivity.
  - rewrite !has_option_cons, IH. reflexivity.
  - rewrite !has_option_cons.
    destruct (c2 =? c), (c1 =? c); reflexivity.
  - congruence.
Qed.

(** X2. The order of the options does not matter for the flags: the same
    options in another order are accepted as well and set the same flags. *)
Theorem parse_options_order rs rs' f :
  Permutation rs rs' ->
  parse_options rs initial_flags = Some f ->
  exists f', parse_options rs' initial_flags = Some f' /\ same_switches f f'.
Proof.
  intros Hp. rewrite !parse_options_from.
  rewrite <- (has_option_Permutation (chr "?") _ _ Hp).
  destruct (has_option (chr "?") rs); [discriminate|].
  intros H. inversion H; subst f. eexists. split; [reflexivity|].
  unfold same_switches. cbn.
  rewrite <- !(has_option_Permutation _ _ _ Hp). repeat split.
Qed.

(** [-d -a alpha.pvr --rgba] and [--rgba -a alpha.pvr -d]. *)
Lemma parse_options_order_witness :
  exists f',
    parse_options [(OptRgba, ""); (chr "a", "alpha.pvr"); (chr "d", "")] initial_flags
    = Some f' /\
    same_switches (mk_Flags false false false false true true true false
                            (Some "alpha.pvr")) f'.
Proof.
  apply (parse_options_order
           [(chr "d", ""); (chr "a", "alpha.pvr"); (OptRgba, "")]).
  - apply Permutation_rev.
  - reflexivity.
Defined.

(** ** What a mode prints and calls *)

Lemma in_mode_trace cl w f e :
  In e (mode_trace cl w f) ->
  (benchmark f = true /\ viewMode f = true /\
   In e [OpenBlockData (input_of cl); GetTime; Decode bd; Sort;
         Printf MsgMedianDecode]) \/
  (benchmark f = true /\ viewMode f = false /\
   (In e [GetTime; NewBitmap (input_of cl) (negb (dxt1 f));
          Printf MsgImageLoadTime; Sort; Printf MsgMedianCompression] \/
    In e (benchmark_turn f (load_Bitmap w (input_of cl) (negb (dxt1 f)))))) \/
  (benchmark f = false /\ viewMode f = true /\
   In e [OpenBlockData (input_of cl); Decode bd; Write (arg cl (optind cl + 1))]) \/
  (benchmark f = false /\ viewMode f = false /\
   In e (encode_trace (CPUCores w) f (dp_of cl w f) (input_of cl)
                      (arg cl (optind cl + 1)))).
Proof.
  unfold mode_trace. destruct (benchmark f), (viewMode f); intros H.
  - left. repeat split. simpl in H. simpl.
    repeat (destruct H as [H|H]; [auto 10|]). contradiction.
  - right; left. repeat split. apply in_benchmark_encode_trace, H.
  - right; right; left. auto.
  - right; right; right. auto.
Qed.

(** The events of the encode mode, one by one. *)
Lemma in_encode_trace_cases cpus f dp input output e :
  In e (encode_trace cpus f dp input output) ->
  e = NewDataProvider input (mipmap f) (negb (dxt1 f)) \/
  e = NewTaskDispatch cpus \/
  e = NewBlockData bd (Some output) (Size dp) (mipmap f) (encode_type f dp) \/
  (separate_alpha f dp = true /\
   e = NewBlockData bda (alpha f) (Size dp) (mipmap f) (encode_type f dp)) \/
  (exists i, 0 <= i < Z.of_nat (Z.to_nat (NumberOfParts dp)) /\
             In e (part_units f dp (encode_type f dp) i)) \/
  e = Sync \/
  (stats f = true /\ In e (measure_trace dp)).
Proof.
  intros H. apply in_encode_trace in H.
  destruct H as [H|[H|[H|H]]]; auto 10.
  unfold setup_trace in H. apply in_app_or in H. destruct H as [H|H].
  - simpl in H. destruct H as [<-|[<-|[<-|[]]]]; auto.
  - destruct (separate_alpha f dp); [|contradiction].
    destruct H as [<-|[]]. auto 10.
Qed.

Lemma notice_not_in_mode cl w f :
  ~ In (Printf MsgDitheringDisabled) (mode_trace cl w f).
Proof.
  intros H. apply in_mode_trace in H.
  destruct H as [(_ & _ & H)|[(_ & _ & [H|H])|[(_ & _ & H)|(_ & _ & H)]]].
  - simpl in H. repeat (destruct H as [H|H]; [discriminate|]). contradiction.
  - simpl in H. repeat (destruct H as [H|H]; [discriminate|]). contradiction.
  - unfold benchmark_turn in H. simpl in H.
    repeat (destruct H as [H|H]; [discriminate|]). contradiction.
  - simpl in H. repeat (destruct H as [H|H]; [discriminate|]). contradiction.
  - apply in_encode_trace_cases in H.
    destruct H as [H|[H|[H|[(_ & H)|[(i & _ & H)|[H|(_ & H)]]]]]]; try discriminate.
    + unfold part_units in H.
      destruct (BlockData.type_eqb _ _); [|destruct (separate_alpha _ _)];
        simpl in H; repeat (destruct H as [H|H]; [discriminate|]); contradiction.
    + simpl in H. repeat (destruct H as [H|H]; [discriminate|]). contradiction.
Qed.

(** X3. The notice "Dithering is disabled in ETC2 mode" is printed exactly
    when the command line has at least 3 arguments, no unknown option, [-d]
    and one of [--etc2], [--rgba]: also on a run that then stops at the
    usage for want of an input or output name. *)
Theorem dithering_notice_iff cl w :
  In (Printf MsgDitheringDisabled) (fst (main cl w)) <->
  3 <= argc cl /\
  has_option (chr "?") (getopt_long cl) = false /\
  has_option (chr "d") (getopt_long cl) = true /\
  (has_option OptEtc2 (getopt_long cl) = true \/
   has_option OptRgba (getopt_long cl) = true).
Proof.
  assert (In (Printf MsgDitheringDisabled) (fst (main cl w)) <->
          In (Printf MsgDitheringDisabled) (notice cl)) as ->.
  { rewrite main_value. destruct (configured cl) as [f|]; cbn [fst]; split.
    - intros [H|H]; [discriminate|]. apply in_app_or in H.
      destruct H as [H|H]; [exact H|]. destruct (notice_not_in_mode _ _ _ H).
    - intros H. right. apply in_or_app. auto.
    - intros [H|H]; [discriminate|]. apply in_app_or in H.
      destruct H as [H|[H|[]]]; [exact H|discriminate].
    - intros H. right. apply in_or_app. auto. }
  unfold notice. rewrite parse_options_spec.
  destruct (Z.ltb_spec (argc cl) 3) as [H3|H3].
  - split; [contradiction|]. intros (H & _). lia.
  - destruct (has_option (chr "?") (getopt_long cl)).
    + split; [contradiction|]. intros (_ & H & _). discriminate.
    + cbn [etc2 dither options_flags].
      destruct (has_option (chr "d") (getopt_long cl)),
               (has_option OptEtc2 (getopt_long cl)),
               (has_option OptRgba (getopt_long cl)); simpl;
        intuition (try discriminate; try contradiction).
Qed.

(** [etcpak --etc2 -d in.png]: the notice, then the usage. *)
Lemma dithering_notice_iff_witness :
  main Runs.etc2_dither_no_output (Sample.world true)
  = ([AddCallback; Printf MsgDitheringDisabled; Usage], 1) /\
  In (Printf MsgDitheringDisabled)
     (fst (main Runs.etc2_dither_no_output (Sample.world true))).
Proof.
  split; [reflexivity|].
  apply (proj2 (dithering_notice_iff Runs.etc2_dither_no_output (Sample.world true))).
  split; [vm_compute; discriminate|].
  split; [reflexivity|split; [reflexivity|left; reflexivity]].
Defined.

(** The locals of a configured run, read off the options. *)
Lemma configured_flags cl f :
  configured cl = Some f ->
  has_option (chr "?") (getopt_long cl) = false /\
  f = settled (options_flags (getopt_long cl)).
Proof.
  intros H. destruct (configured_inv _ _ H) as (f0 & Hp & -> & _).
  rewrite parse_options_spec in Hp.
  destruct (has_option (chr "?") (getopt_long cl)); [discriminate|].
  inversion Hp. auto.
Qed.

Lemma configured_dither cl f :
  configured cl = Some f ->
  dither f
  = has_option (chr "d") (getopt_long cl)
    && negb (has_option OptEtc2 (getopt_long cl)
             || has_option OptRgba (getopt_long cl)).
Proof.
  intros H. destruct (configured_flags _ _ H) as (_ & ->).
  destruct (settled_fields (options_flags (getopt_long cl)))
    as (_ & _ & _ & _ & _ & _ & _ & _ & Hd).
  rewrite Hd. reflexivity.
Qed.

(** The dither flag of a call on the colour buffer is the local [dither]. *)
Lemma bd_call_dither cl w f c :
  configured cl = Some f ->
  (exists i, In (Queue i bd c) (mode_trace cl w f)) \/
  In (Invoke bd c) (mode_trace cl w f) ->
  call_dither c = dither f.
Proof.
  intros Hc H.
  assert (is_ProcessRGBA c = true -> etc2 f = true ->
          call_dither c = dither f) as Hrgba.
  { intros H1 H2. rewrite (configured_etc2_dither _ _ Hc H2).
    destruct c; [reflexivity|discriminate]. }
  destruct H as [(i & H)|H]; apply in_mode_trace in H;
    destruct H as [(_ & _ & H)|[(_ & _ & [H|H])|[(_ & _ & H)|(_ & _ & H)]]];
    try (simpl in H; repeat (destruct H as [H|H]; [discriminate|]); contradiction).
  - apply in_encode_trace_cases in H.
    destruct H as [H|[H|[H|[(_ & H)|[(j & _ & H)|[H|(_ & H)]]]]]]; try discriminate.
    + unfold part_units in H. destruct (BlockData.type_eqb _ _) eqn:E.
      * destruct H as [H|[]]. inversion H; subst. apply Hrgba; [reflexivity|].
        rewrite <- (encode_type_etc2 f (dp_of cl w f)).
        destruct (encode_type f (dp_of cl w f)); try discriminate. reflexivity.
      * destruct H as [H|H]; [inversion H; reflexivity|].
        destruct (separate_alpha _ _); [|contradiction].
        destruct H as [H|[]]. discriminate.
    + simpl in H. repeat (destruct H as [H|H]; [discriminate|]). contradiction.
  - unfold benchmark_turn in H. simpl in H.
    destruct H as [H|[H|[H|[H|[]]]]]; try discriminate.
    destruct (rgba f) eqn:Hr; inversion H; subst c; simpl; [|reflexivity].
    rewrite (configured_etc2_dither _ _ Hc (configured_rgba_etc2 _ _ Hc Hr)).
    reflexivity.
  - apply in_encode_trace_cases in H.
    destruct H as [H|[H|[H|[(_ & H)|[(j & _ & H)|[H|(_ & H)]]]]]]; try discriminate.
    + unfold part_units in H.
      destruct (BlockData.type_eqb _ _); [|destruct (separate_alpha _ _)];
        simpl in H; repeat (destruct H as [H|H]; [discriminate|]); contradiction.
    + simpl in H. repeat (destruct H as [H|H]; [discriminate|]). contradiction.
Qed.

(** X4. Dithering of the colour data is what the user asked for, except in
    ETC2: every call on the colour buffer, queued or direct, has the dither
    flag true exactly when [-d] is given and neither [--etc2] nor [--rgba]
    is. *)
Theorem colour_dither cl w c :
  (exists i, In (Queue i bd c) (fst (main cl w))) \/
  In (Invoke bd c) (fst (main cl w)) ->
  call_dither c
  = has_option (chr "d") (getopt_long cl)
    && negb (has_option OptEtc2 (getopt_long cl)
             || has_option OptRgba (getopt_long cl)).
Proof.
  intros H.
  assert (exists f, configured cl = Some f /\
            ((exists i, In (Queue i bd c) (mode_trace cl w f)) \/
             In (Invoke bd c) (mode_trace cl w f))) as (f & Hc & H').
  { destruct H as [(i & H)|H]; apply main_event in H;
      destruct H as [H|[H|[[H _]|(f & Hc & H)]]]; try discriminate;
      exists f; split; eauto. }
  rewrite <- (configured_dither _ _ Hc). apply (bd_call_dither _ w _ _ Hc H').
Qed.

(** [-d -a alpha.pvr] in ETC1: the colour unit is dithered. *)
Lemma colour_dither_witness :
  call_dither (Process 32 8 64 8 Channels.RGB true)
  = has_option (chr "d") (getopt_long Sample.dither_alpha)
    && negb (has_option OptEtc2 (getopt_long Sample.dither_alpha)
             || has_option OptRgba (getopt_long Sample.dither_alpha)).
Proof.
  apply (colour_dither Sample.dither_alpha (Sample.world true)).
  left. exists 1. in_trace.
Defined.

(** Which of the two entry points of the codec a mode calls. *)
Lemma calls_mode_trace_kind cl w f c :
  In c (calls (mode_trace cl w f)) ->
  is_ProcessRGBA c
  = if benchmark f then rgba f
    else BlockData.type_eqb (encode_type f (dp_of cl w f)) BlockData.Etc2_RGBA.
Proof.
  unfold calls. rewrite in_flat_map. intros (e & He & Hc).
  apply in_mode_trace in He.
  destruct He as [(_ & _ & H)|[(Hb & _ & [H|H])|[(_ & _ & H)|(Hb & _ & H)]]];
    try (simpl in H; repeat (destruct H as [<-|H]; [contradiction|]); contradiction).
  - rewrite Hb. unfold benchmark_turn in H. simpl in H.
    destruct H as [<-|[<-|[<-|[<-|[]]]]]; try contradiction.
    destruct Hc as [<-|[]]. destruct (rgba f); reflexivity.
  - rewrite Hb. apply in_encode_trace_cases in H.
    destruct H as [->|[->|[->|[(_ & ->)|[(j & _ & H)|[->|(_ & H)]]]]]];
      try contradiction.
    + unfold part_units in H. destruct (BlockData.type_eqb _ _).
      * destruct H as [<-|[]]. destruct Hc as [<-|[]]. reflexivity.
      * destruct H as [<-|H]; [destruct Hc as [<-|[]]; reflexivity|].
        destruct (separate_alpha _ _); [|contradiction].
        destruct H as [<-|[]]. destruct Hc as [<-|[]]. reflexivity.
    + simpl in H. repeat (destruct H as [<-|H]; [contradiction|]). contradiction.
Qed.

Lemma benchmark_type_RGBA f :
  BlockData.type_eqb (benchmark_type f) BlockData.Etc2_RGBA = rgba f.
Proof.
  unfold benchmark_type. destruct (rgba f), (etc2 f), (dxt1 f); reflexivity.
Qed.

(** X5. The entry point of the codec fits the format of the buffer: in
    every run a buffer of format ETC2_RGBA is filled by [ProcessRGBA] only,
    and a buffer of any other format by [Process] only. *)
Theorem call_fits_format cl w ty c :
  In ty (types (fst (main cl w))) ->
  In c (calls (fst (main cl w))) ->
  is_ProcessRGBA c = BlockData.type_eqb ty BlockData.Etc2_RGBA.
Proof.
  rewrite types_main, calls_main.
  destruct (configured cl) as [f|]; [|contradiction].
  rewrite types_mode_trace. intros Hty Hc.
  rewrite (calls_mode_trace_kind _ _ _ _ Hc).
  destruct (viewMode f); [contradiction|].
  destruct (benchmark f); apply repeat_spec in Hty; subst ty.
  - symmetry. apply benchmark_type_RGBA.
  - reflexivity.
Qed.

(** [--rgba] on a source with alpha: the units call [ProcessRGBA]. *)
Lemma call_fits_format_witness :
  is_ProcessRGBA (ProcessRGBA 32 8 64 8)
  = BlockData.type_eqb BlockData.Etc2_RGBA BlockData.Etc2_RGBA.
Proof.
  apply (call_fits_format Sample.rgba_plain (Sample.world true)); in_trace.
Defined.

Lemma calls_benchmark_encode_trace w f input :
  calls (benchmark_encode_trace w f input)
  = repeat (whole_bitmap_call f (load_Bitmap w input (negb (dxt1 f))))
           (Z.to_nat NumTasks).
Proof. reflexivity. Qed.

Lemma filter_benchmark_encode_trace p w f input :
  p GetTime = false -> p Sort = false ->
  (forall m, p (Printf m) = false) ->
  (forall a b, p (NewBitmap a b) = false) ->
  (forall a b c d e, p (NewBlockData a b c d e) = false) ->
  (forall b c, p (Invoke b c) = false) ->
  filter p (benchmark_encode_trace w f input) = [].
Proof.
  intros H1 H2 H3 H4 H5 H6. unfold benchmark_encode_trace.
  rewrite !filter_app, filter_flat_map, flat_map_nil.
  - cbn [filter]. rewrite H1, H2, H3, H4, H3. reflexivity.
  - intros _. unfold benchmark_turn. cbn [filter]. rewrite H1, H5, H6. reflexivity.
Qed.

(** X6. The benchmark of compression works in place: it builds no
    DataProvider and no TaskDispatch, queues nothing and never waits,
    decodes and writes nothing; 9 times over it makes a buffer and calls
    the codec on it, directly and over the whole bitmap: x * y / 16 blocks,
    the product taken in [int], from offset 0, on the alpha channel when
    [-a] is given. *)
Theorem benchmark_works_in_place cl w f :
  configured cl = Some f -> benchmark f = true -> viewMode f = false ->
  let t := fst (main cl w) in
  let bmp := load_Bitmap w (input_of cl) (negb (dxt1 f)) in
  let size := BitmapSize bmp in
  let blocks := Z.quot (int32 (x size * y size)) 16 in
  let call :=
    if rgba f then ProcessRGBA (Data bmp) blocks 0 (x size)
    else Process (Data bmp) blocks 0 (x size)
                 (match alpha f with
                  | Some _ => Channels.Alpha
                  | None => Channels.RGB
                  end)
                 (dither f) in
  filter (fun e => is_NewBlockData e || is_Invoke e) t
  = List.concat (repeat [NewBlockData bd None size false (benchmark_type f);
                    Invoke bd call] 9) /\
  calls t = repeat call 9 /\
  types t = repeat (benchmark_type f) 9 /\
  filter is_pool_event t = [] /\
  filter is_Decode t = [] /\ filter is_Write t = [].
Proof.
  intros Hc Hb Hv t bmp size blocks call. subst t bmp size blocks call.
  rewrite types_main, calls_main, Hc, types_mode_trace, Hv, Hb.
  rewrite (main_configured _ _ _ Hc). unfold mode_trace. rewrite Hb, Hv.
  cbn [fst]. split.
  { rewrite filter_cons_false, filter_app, filter_notice by reflexivity.
    reflexivity. }
  split; [apply calls_benchmark_encode_trace|].
  split; [reflexivity|].
  repeat split;
    rewrite filter_cons_false, filter_app, filter_notice,
      filter_benchmark_encode_trace by reflexivity; reflexivity.
Qed.

(** [etcpak -b -d -a alpha.pvr -m -s in.png] on a bitmap of 8 by 32. *)
Lemma benchmark_works_in_place_witness :
  let t := fst (main Runs.benchmark_alpha (Sample.world true)) in
  let call := Process 0 16 0 8 Channels.Alpha true in
  filter (fun e => is_NewBlockData e || is_Invoke e) t
  = List.concat (repeat [NewBlockData bd None (mk_v2i 8 32) false BlockData.Etc1;
                    Invoke bd call] 9) /\
  calls t = repeat call 9 /\
  types t = repeat BlockData.Etc1 9 /\
  filter is_pool_event t = [] /\
  filter is_Decode t = [] /\ filter is_Write t = [].
Proof.
  exact (benchmark_works_in_place Runs.benchmark_alpha (Sample.world true)
           (mk_Flags false true true true true false false false (Some "alpha.pvr"))
           eq_refl eq_refl eq_refl).
Defined.

(** ** Which mode a command line selects *)

Ltac absurd_in H :=
  simpl in H; repeat (destruct H as [H|H]; [discriminate|]); contradiction.

(** [configured] read off the options. *)
Lemma configured_options cl :
  configured cl
  = if (argc cl <? 3) || has_option (chr "?") (getopt_long cl)
       || (argc cl - optind cl
           <? (if has_option (chr "b") (getopt_long cl) then 1 else 2))
    then None
    else Some (settled (options_flags (getopt_long cl))).
Proof.
  unfold configured. rewrite parse_options_spec.
  destruct (argc cl <? 3); [reflexivity|].
  destruct (has_option (chr "?") (getopt_long cl)); [reflexivity|].
  destruct (settled_fields (options_flags (getopt_long cl)))
    as (_ & _ & Hb & _). rewrite Hb. reflexivity.
Qed.

Lemma configured_switches cl f :
  configured cl = Some f ->
  viewMode f = has_option (chr "v") (getopt_long cl) /\
  stats f = has_option (chr "s") (getopt_long cl) /\
  benchmark f = has_option (chr "b") (getopt_long cl) /\
  alpha f = last_optarg (chr "a") (getopt_long cl) None.
Proof.
  intros H. destruct (configured_flags _ _ H) as (_ & ->).
  destruct (settled_fields (options_flags (getopt_long cl)))
    as (Hv & Hs & Hb & _ & _ & _ & _ & Ha & _).
  rewrite Hv, Hs, Hb, Ha. auto.
Qed.

Lemma in_main_mode cl w f e :
  configured cl = Some f -> In e (mode_trace cl w f) -> In e (fst (main cl w)).
Proof.
  intros Hc H. rewrite (main_configured _ _ _ Hc). right.
  apply in_or_app. auto.
Qed.

Lemma not_in_part_units f dp ty i e :
  is_Queue e = false -> ~ In e (part_units f dp ty i).
Proof.
  intros He H. unfold part_units in H.
  destruct (BlockData.type_eqb _ _); [|destruct (separate_alpha _ _)];
    simpl in H; repeat (destruct H as [<-|H]; [discriminate|]); contradiction.
Qed.

(** X7. The decoded image is written exactly in view mode without [-b]:
    a well-formed command line with [-v] and without [-b] writes to the
    second name, and no other run writes anything. *)
Theorem write_iff_view cl w o :
  In (Write o) (fst (main cl w)) <->
  exists f, configured cl = Some f /\
            has_option (chr "v") (getopt_long cl) = true /\
            has_option (chr "b") (getopt_long cl) = false /\
            o = arg cl (optind cl + 1).
Proof.
  split.
  - intros H. apply main_event in H.
    destruct H as [H|[H|[[H _]|(f & Hc & H)]]]; try discriminate.
    destruct (configured_switches _ _ Hc) as (Hv & _ & Hb & _).
    exists f. rewrite <- Hv, <- Hb. split; [exact Hc|].
    apply in_mode_trace in H.
    destruct H as [(_ & _ & H)|[(_ & _ & [H|H])|[(Hb' & Hv' & H)|(_ & _ & H)]]].
    + absurd_in H.
    + absurd_in H.
    + unfold benchmark_turn in H. absurd_in H.
    + destruct H as [H|[H|[H|[]]]]; try discriminate. inversion H. auto.
    + apply in_encode_trace_cases in H.
      destruct H as [H|[H|[H|[(_ & H)|[(j & _ & H)|[H|(_ & H)]]]]]];
        try discriminate.
      * exfalso. revert H. apply not_in_part_units. reflexivity.
      * absurd_in H.
  - intros (f & Hc & Hv & Hb & ->).
    destruct (configured_switches _ _ Hc) as (Hv' & _ & Hb' & _).
    apply (in_main_mode _ _ _ _ Hc). unfold mode_trace.
    rewrite Hb', Hb, Hv', Hv. right; right; left. reflexivity.
Qed.

(** [etcpak -v -s --etc2 in.pvr out.png] writes out.png. *)
Lemma write_iff_view_witness :
  In (Write "out.png") (fst (main Runs.view_etc2 (Sample.world true))).
Proof.
  apply (proj2 (write_iff_view Runs.view_etc2 (Sample.world true) "out.png")).
  exists (mk_Flags true true false false false true false false None).
  repeat split.
Defined.

(** X8. The quality of the result is measured exactly when encoding with
    [-s]: the error is computed, against the pixels of the source and on
    the decoded colour buffer, in a well-formed run with [-s] and without
    [-b] and [-v], and in no other run. *)
Theorem measured_iff_stats cl w o d :
  In (CalcMSE3 o d) (fst (main cl w)) <->
  exists f, configured cl = Some f /\
            has_option (chr "s") (getopt_long cl) = true /\
            has_option (chr "b") (getopt_long cl) = false /\
            has_option (chr "v") (getopt_long cl) = false /\
            o = ImageData (dp_of cl w f) /\ d = bd.
Proof.
  split.
  - intros H. apply main_event in H.
    destruct H as [H|[H|[[H _]|(f & Hc & H)]]]; try discriminate.
    destruct (configured_switches _ _ Hc) as (Hv & Hs & Hb & _).
    exists f. rewrite <- Hv, <- Hb, <- Hs. split; [exact Hc|].
    apply in_mode_trace in H.
    destruct H as [(_ & _ & H)|[(_ & _ & [H|H])|[(_ & _ & H)|(Hb' & Hv' & H)]]].
    + absurd_in H.
    + absurd_in H.
    + unfold benchmark_turn in H. absurd_in H.
    + absurd_in H.
    + apply in_encode_trace_cases in H.
      destruct H as [H|[H|[H|[(_ & H)|[(j & _ & H)|[H|(Hs' & H)]]]]]];
        try discriminate.
      * exfalso. revert H. apply not_in_part_units. reflexivity.
      * simpl in H. destruct H as [H|[H|[H|[H|[H|[]]]]]]; try discriminate.
        inversion H. auto.
  - intros (f & Hc & Hs & Hb & Hv & -> & ->).
    destruct (configured_switches _ _ Hc) as (Hv' & Hs' & Hb' & _).
    apply (in_main_mode _ _ _ _ Hc). unfold mode_trace.
    rewrite Hb', Hb, Hv', Hv. unfold encode_trace.
    apply in_or_app. right. apply in_or_app. right. apply in_or_app. right.
    rewrite Hs', Hs. right. left. reflexivity.
Qed.

(** [-s] with [-v] measures nothing; [-s] when encoding does. *)
Lemma measured_iff_stats_witness :
  In (CalcMSE3 0 bd) (fst (main Sample.etc2_dither_alpha (Sample.world true))) /\
  ~ In (CalcMSE3 0 bd) (fst (main Runs.view_etc2 (Sample.world true))).
Proof.
  split.
  - apply (proj2 (measured_iff_stats Sample.etc2_dither_alpha (Sample.world true)
                    0 bd)).
    exists (Sample.flags false true false true false (Some "alpha.pvr")).
    repeat split.
  - intros H.
    apply (proj1 (measured_iff_stats Runs.view_etc2 (Sample.world true) 0 bd)) in H.
    destruct H as (f & _ & _ & _ & H & _). discriminate H.
Defined.

(** ** Construction before use *)

Lemma preceded_seen u m t : preceded u m true t = true.
Proof.
  induction t as [|e t IH]; simpl; [reflexivity|].
  rewrite orb_true_r. exact IH.
Qed.

Lemma preceded_none u m t : forall s,
  (forall e, In e t -> u e = false) -> preceded u m s t = true.
Proof.
  induction t as [|e t IH]; simpl; intros s H; [reflexivity|].
  rewrite (H e) by auto. simpl. apply IH. auto.
Qed.

Lemma preceded_app u m l1 : forall l2 s,
  preceded u m s (l1 ++ l2)
  = preceded u m s l1 && preceded u m (s || existsb m l1) l2.
Proof.
  induction l1 as [|e l1 IH]; simpl; intros l2 s.
  - rewrite orb_false_r. reflexivity.
  - rewrite IH, andb_assoc, orb_assoc. reflexivity.
Qed.

Lemma preceded_split u m t s pre e post :
  preceded u m s t = true -> t = pre ++ e :: post -> u e = true ->
  s || existsb m pre = true.
Proof.
  intros H -> Hu. rewrite preceded_app in H. simpl in H. rewrite Hu in H.
  simpl in H. apply andb_true_iff in H. destruct H as (_ & H).
  apply andb_true_iff in H. tauto.
Qed.

Lemma preceded_notice u m s cl l :
  u (Printf MsgDitheringDisabled) = false ->
  m (Printf MsgDitheringDisabled) = false ->
  preceded u m s (notice cl ++ l) = preceded u m s l.
Proof.
  intros Hu Hm. unfold notice. destruct (argc cl <? 3); [reflexivity|].
  destruct (parse_options _ _) as [f0|]; [|reflexivity].
  destruct (etc2 f0 && dither f0); [|reflexivity].
  simpl. rewrite Hu, Hm, orb_false_r. reflexivity.
Qed.

(** Once the set-up of the encode mode has made what the later events use,
    the whole mode is in order. *)
Lemma preceded_encode_trace u m cpus f dp input output :
  preceded u m false (setup_trace cpus f dp input output) = true ->
  existsb m (setup_trace cpus f dp input output) = true ->
  preceded u m false (encode_trace cpus f dp input output) = true.
Proof.
  intros H1 H2. unfold encode_trace.
  rewrite preceded_app, H1, H2. apply preceded_seen.
Qed.

Lemma no_use_of_bda f dp cpus input output e :
  separate_alpha f dp = false ->
  In e (encode_trace cpus f dp input output) -> uses_buffer bda e = false.
Proof.
  intros E H. apply in_encode_trace_cases in H.
  destruct H as [->|[->|[->|[(E' & _)|[(j & _ & H)|[->|(_ & H)]]]]]];
    try reflexivity.
  - congruence.
  - unfold part_units in H. rewrite E in H.
    destruct (BlockData.type_eqb _ _); simpl in H;
      repeat (destruct H as [<-|H]; [reflexivity|]); contradiction.
  - simpl in H. repeat (destruct H as [<-|H]; [reflexivity|]). contradiction.
Qed.

Lemma preceded_mode_bd cl w f :
  preceded (uses_buffer bd) (creates bd) false (mode_trace cl w f) = true.
Proof.
  unfold mode_trace. destruct (benchmark f), (viewMode f); try reflexivity.
  apply preceded_encode_trace; unfold setup_trace;
    destruct (separate_alpha _ _); reflexivity.
Qed.

Lemma preceded_mode_bda cl w f :
  preceded (uses_buffer bda) (creates bda) false (mode_trace cl w f) = true.
Proof.
  unfold mode_trace. destruct (benchmark f), (viewMode f); try reflexivity.
  destruct (separate_alpha f (dp_of cl w f)) eqn:E.
  - apply preceded_encode_trace; unfold setup_trace; rewrite E; reflexivity.
  - apply preceded_none. intros e. apply no_use_of_bda, E.
Qed.

Lemma preceded_mode_pool cl w f :
  preceded needs_pool is_NewTaskDispatch false (mode_trace cl w f) = true.
Proof.
  unfold mode_trace. destruct (benchmark f), (viewMode f); try reflexivity.
  apply preceded_encode_trace; unfold setup_trace;
    destruct (separate_alpha _ _); reflexivity.
Qed.

Lemma preceded_main u m cl w :
  u AddCallback = false -> m AddCallback = false ->
  u Usage = false ->
  u (Printf MsgDitheringDisabled) = false ->
  m (Printf MsgDitheringDisabled) = false ->
  (forall f, preceded u m false (mode_trace cl w f) = true) ->
  preceded u m false (fst (main cl w)) = true.
Proof.
  intros H1 H2 H3 H4 H5 H6. rewrite main_value.
  destruct (configured cl) as [f|]; cbn [fst preceded];
    rewrite H1, H2, preceded_notice by assumption; simpl.
  - apply H6.
  - rewrite H3. reflexivity.
Qed.

(** X9. No buffer is used before it is constructed: whatever works on a
    block buffer (a direct or queued call of the codec, [Decode], the
    measurement) comes, in program order, after the construction of that
    buffer; in particular no unit is queued on the alpha buffer in a run
    that did not make one. *)
Theorem buffers_built_before_use cl w pre e post b :
  fst (main cl w) = pre ++ e :: post ->
  uses e = Some b ->
  existsb (creates b) pre = true.
Proof.
  intros Ht Hu.
  assert (uses_buffer b e = true) as Hu'.
  { unfold uses_buffer. rewrite Hu. apply Buffer_eqb_eq. reflexivity. }
  change (false || existsb (creates b) pre = true).
  refine (preceded_split (uses_buffer b) (creates b) _ false pre e post _ Ht Hu').
  destruct b; apply preceded_main; try reflexivity; intros f.
  - apply preceded_mode_bd.
  - apply preceded_mode_bda.
Qed.

(** The second alpha unit of [-d -a alpha.pvr] comes after both buffers. *)
Lemma buffers_built_before_use_witness :
  existsb (creates bda)
    [AddCallback; NewDataProvider "in.png" false true; NewTaskDispatch 4;
     NewBlockData bd (Some "out.pvr") (mk_v2i 8 32) false BlockData.Etc1;
     NewBlockData bda (Some "alpha.pvr") (mk_v2i 8 32) false BlockData.Etc1;
     Queue 0 bd (Process 0 8 0 8 Channels.RGB true);
     Queue 0 bda (Process 0 8 0 8 Channels.Alpha false);
     Queue 1 bd (Process 32 8 64 8 Channels.RGB true)]
  = true.
Proof.
  apply (buffers_built_before_use Sample.dither_alpha (Sample.world true) _
           (Queue 1 bda (Process 32 8 64 8 Channels.Alpha false)) [Sync] bda);
    reflexivity.
Defined.

(** X10. Nothing goes through the pool before the pool exists: every
    [Queue] and the [Sync] come after the construction of the
    [TaskDispatch]. *)
Theorem pool_built_before_use cl w pre e post :
  fst (main cl w) = pre ++ e :: post ->
  needs_pool e = true ->
  existsb is_NewTaskDispatch pre = true.
Proof.
  intros Ht Hu.
  change (false || existsb is_NewTaskDispatch pre = true).
  refine (preceded_split needs_pool is_NewTaskDispatch _ false pre e post _ Ht Hu).
  apply preceded_main; try reflexivity. intros f. apply preceded_mode_pool.
Qed.

(** The first unit of the plain run. *)
Lemma pool_built_before_use_witness :
  existsb is_NewTaskDispatch
    [AddCallback; NewDataProvider "in.png" false true; NewTaskDispatch 4;
     NewBlockData bd (Some "out.pvr") (mk_v2i 8 32) false BlockData.Etc1]
  = true.
Proof.
  apply (pool_built_before_use Sample.plain (Sample.world false) _
           (Queue 0 bd (Process 0 8 0 8 Channels.RGB false))
           [Queue 1 bd (Process 32 8 64 8 Channels.RGB false); Sync]);
    reflexivity.
Defined.

(** ** The units, part by part *)

Lemma flat_map_singleton {A B} (g : A -> B) l :
  flat_map (fun i => [g i]) l = map g l.
Proof. induction l as [|a l IH]; simpl; [|rewrite IH]; reflexivity. Qed.

Lemma colour_of_part_units f dp i :
  filter (fun e => negb (on_bda e)) (part_units f dp (encode_type f dp) i)
  = [colour_unit f dp i].
Proof.
  unfold part_units, colour_unit.
  destruct (BlockData.type_eqb _ _); [reflexivity|].
  destruct (separate_alpha f dp); reflexivity.
Qed.

(** X11. Whatever the format, the colour buffer gets exactly one unit per
    part, queued in the order of the parts: the unit of index i carries the
    source, offset and width of the part the i-th call of [NextPart]
    returned and the block count (width / 4) * lines in [unsigned int],
    and calls [ProcessRGBA] for ETC2_RGBA, [Process] on the RGB channel
    otherwise. *)
Theorem colour_units_in_order cl w f :
  configured cl = Some f -> benchmark f = false -> viewMode f = false ->
  let dp := dp_of cl w f in
  filter (fun e => negb (on_bda e)) (queued (fst (main cl w)))
  = map (fun i =>
           let part := NextPart dp (Z.to_nat i) in
           let blocks := (Z.quot (width part) 4 * lines part) mod 2 ^ 32 in
           Queue i bd
             (if BlockData.type_eqb (encode_type f dp) BlockData.Etc2_RGBA
              then ProcessRGBA (src part) blocks (offset part) (width part)
              else Process (src part) blocks (offset part) (width part)
                           Channels.RGB (dither f)))
        (iota 0 (Z.to_nat (NumberOfParts dp))).
Proof.
  intros Hc Hb Hv dp. subst dp. rewrite (queued_main_encode _ _ _ Hc Hb Hv).
  unfold queue_trace. rewrite filter_flat_map.
  change (fun i : Z => _) with (colour_unit f (dp_of cl w f)) at 2.
  rewrite <- flat_map_singleton.
  apply flat_map_ext. intros i. apply colour_of_part_units.
Qed.

(** [--rgba] on a source with alpha. *)
Lemma colour_units_in_order_witness :
  filter (fun e => negb (on_bda e))
         (queued (fst (main Sample.rgba_plain (Sample.world true))))
  = [Queue 0 bd (ProcessRGBA 0 8 0 8); Queue 1 bd (ProcessRGBA 32 8 64 8)].
Proof.
  exact (colour_units_in_order Sample.rgba_plain (Sample.world true)
           (Sample.flags false false false true true None)
           eq_refl eq_refl eq_refl).
Defined.

(** X12. The alpha buffer is made on the path of the last [-a]: when [-a]
    is given more than once, the earlier paths are dropped. *)
Theorem alpha_path_is_last cl w n s m ty :
  In (NewBlockData bda n s m ty) (fst (main cl w)) ->
  exists a, n = Some a /\
            last_optarg (chr "a") (getopt_long cl) None = Some a.
Proof.
  intros H. apply main_event in H.
  destruct H as [H|[H|[[H _]|(f & Hc & H)]]]; try discriminate.
  destruct (configured_switches _ _ Hc) as (_ & _ & _ & Ha).
  apply in_mode_trace in H.
  destruct H as [(_ & _ & H)|[(_ & _ & [H|H])|[(_ & _ & H)|(_ & _ & H)]]].
  - absurd_in H.
  - absurd_in H.
  - unfold benchmark_turn in H. absurd_in H.
  - absurd_in H.
  - apply in_encode_trace_cases in H.
    destruct H as [H|[H|[H|[(E & H)|[(j & _ & H)|[H|(_ & H)]]]]]];
      try discriminate.
    + inversion H; subst. apply separate_alpha_iff in E.
      destruct E as (E & _). rewrite <- Ha.
      destruct (alpha f) as [a|]; [eauto|congruence].
    + exfalso. revert H. apply not_in_part_units. reflexivity.
    + absurd_in H.
Qed.

(** [etcpak -a first.pvr -d -a last.pvr in.png out.pvr] *)
Lemma alpha_path_is_last_witness :
  exists a, Some "last.pvr" = Some a /\
            last_optarg (chr "a") (getopt_long Runs.two_alpha_paths) None = Some a.
Proof.
  apply (alpha_path_is_last Runs.two_alpha_paths (Sample.world true)
           (Some "last.pvr") (mk_v2i 8 32) false BlockData.Etc1).
  in_trace.
Defined.

(** ** The benchmark of decoding and the loading of the source *)

Lemma filter_benchmark_decode_trace p input :
  p (OpenBlockData input) = false -> p GetTime = false ->
  p (Decode bd) = false -> p Sort = false ->
  (forall m, p (Printf m) = false) ->
  filter p (benchmark_decode_trace input) = [].
Proof.
  intros H1 H2 H3 H4 H5. unfold benchmark_decode_trace.
  rewrite !filter_app, filter_flat_map, flat_map_nil.
  - cbn [filter]. rewrite H1, H4, H5. reflexivity.
  - intros _. cbn [filter]. rewrite H2, H3. reflexivity.
Qed.

(** X13. With [-b], [-v] times the decoder and writes nothing: the file is
    opened once and decoded 9 times; no buffer is allocated, the codec is
    not called, nothing goes through the pool and nothing is written. *)
Theorem benchmark_of_decoding cl w f :
  configured cl = Some f -> benchmark f = true -> viewMode f = true ->
  let t := fst (main cl w) in
  filter is_Decode t = repeat (Decode bd) 9 /\
  filter (fun e => match e with OpenBlockData _ => true | _ => false end) t
  = [OpenBlockData (input_of cl)] /\
  types t = [] /\ calls t = [] /\
  filter is_pool_event t = [] /\ filter is_Write t = [].
Proof.
  intros Hc Hb Hv t. subst t.
  rewrite types_main, calls_main, Hc, types_mode_trace, Hv.
  rewrite (main_configured _ _ _ Hc). unfold mode_trace. rewrite Hb, Hv.
  cbn [fst].
  repeat split;
    rewrite filter_cons_false, filter_app, filter_notice by reflexivity;
    try (rewrite filter_benchmark_decode_trace by reflexivity);
    reflexivity.
Qed.

(** [etcpak -b -v in.pvr]: one name is enough. *)
Lemma benchmark_of_decoding_witness :
  let t := fst (main Runs.benchmark_view (Sample.world true)) in
  filter is_Decode t = repeat (Decode bd) 9 /\
  filter (fun e => match e with OpenBlockData _ => true | _ => false end) t
  = [OpenBlockData "in.pvr"] /\
  types t = [] /\ calls t = [] /\
  filter is_pool_event t = [] /\ filter is_Write t = [].
Proof.
  exact (benchmark_of_decoding Runs.benchmark_view (Sample.world true)
           (mk_Flags true false true false false false false false None)
           eq_refl eq_refl eq_refl).
Defined.

Lemma configured_loading cl f :
  configured cl = Some f ->
  mipmap f = has_option (chr "m") (getopt_long cl) /\
  dxt1 f = has_option OptDxt1 (getopt_long cl) /\
  etc2 f = has_option OptEtc2 (getopt_long cl)
           || has_option OptRgba (getopt_long cl).
Proof.
  intros H. destruct (configured_flags _ _ H) as (_ & ->).
  destruct (settled_fields (options_flags (getopt_long cl)))
    as (_ & _ & _ & Hm & He & _ & Hx & _).
  rewrite Hm, He, Hx. auto.
Qed.

(** X14. Every run reads its source from the first name after the options,
    and the pixel order asked of the loader follows [--dxt1] alone: the
    BGR flag given to [Bitmap] and to [DataProvider] is false exactly when
    [--dxt1] is given; the DataProvider makes mipmaps exactly when [-m] is
    given. *)
Theorem source_loading cl w e :
  In e (fst (main cl w)) ->
  match e with
  | NewBitmap i b =>
      i = arg cl (optind cl) /\
      b = negb (has_option OptDxt1 (getopt_long cl))
  | NewDataProvider i m b =>
      i = arg cl (optind cl) /\
      m = has_option (chr "m") (getopt_long cl) /\
      b = negb (has_option OptDxt1 (getopt_long cl))
  | OpenBlockData i => i = arg cl (optind cl)
  | _ => True
  end.
Proof.
  intros H. apply main_event in H.
  destruct H as [->|[->|[[-> _]|(f & Hc & H)]]]; try exact I.
  destruct (configured_loading _ _ Hc) as (Hm & Hx & _).
  rewrite <- Hm, <- Hx.
  apply in_mode_trace in H.
  destruct H as [(_ & _ & H)|[(_ & _ & [H|H])|[(_ & _ & H)|(_ & _ & H)]]].
  - simpl in H. repeat (destruct H as [<-|H]; [try exact I; reflexivity|]).
    contradiction.
  - simpl in H. repeat (destruct H as [<-|H]; [try exact I; split; reflexivity|]).
    contradiction.
  - unfold benchmark_turn in H. simpl in H.
    repeat (destruct H as [<-|H]; [exact I|]). contradiction.
  - simpl in H. repeat (destruct H as [<-|H]; [try exact I; reflexivity|]).
    contradiction.
  - apply in_encode_trace_cases in H.
    destruct H as [->|[->|[->|[(_ & ->)|[(j & _ & H)|[->|(_ & H)]]]]]];
      try exact I.
    + repeat split.
    + unfold part_units in H.
      destruct (BlockData.type_eqb _ _); [|destruct (separate_alpha _ _)];
        simpl in H; repeat (destruct H as [<-|H]; [exact I|]); contradiction.
    + simpl in H. repeat (destruct H as [<-|H]; [exact I|]). contradiction.
Qed.

(** [etcpak -b -d -a alpha.pvr -m -s in.png]: the bitmap is in.png, with
    the BGR flag. *)
Lemma source_loading_witness :
  "in.png" = arg Runs.benchmark_alpha (optind Runs.benchmark_alpha) /\
  true = negb (has_option OptDxt1 (getopt_long Runs.benchmark_alpha)).
Proof.
  apply (source_loading Runs.benchmark_alpha (Sample.world true)
           (NewBitmap "in.png" true)).
  in_trace.
Defined.

(** X15. The format and the pixel order are chosen apart: with [--dxt1]
    next to [--etc2] or [--rgba], every buffer of the run has an ETC2
    format, and the source is still loaded as for DXT1, its BGR flag
    false. *)
Theorem etc2_with_dxt1 cl w f :
  configured cl = Some f -> viewMode f = false ->
  has_option OptEtc2 (getopt_long cl) || has_option OptRgba (getopt_long cl) = true ->
  has_option OptDxt1 (getopt_long cl) = true ->
  types (fst (main cl w)) <> [] /\
  (forall ty, In ty (types (fst (main cl w))) -> BlockData.is_etc2 ty = true) /\
  (In (NewBitmap (arg cl (optind cl)) false) (fst (main cl w)) \/
   In (NewDataProvider (arg cl (optind cl)) (mipmap f) false) (fst (main cl w))).
Proof.
  intros Hc Hv He Hx.
  destruct (configured_loading _ _ Hc) as (_ & Hx' & He').
  rewrite Hx in Hx'. rewrite He in He'.
  split; [|split].
  - rewrite types_main, Hc, types_mode_trace, Hv.
    destruct (benchmark f); [discriminate|].
    destruct (separate_alpha _ _); discriminate.
  - rewrite types_main, Hc. intros ty Hty.
    rewrite (mode_types_etc2 _ _ _ _ Hc Hty). exact He'.
  - destruct (benchmark f) eqn:Hb.
    + left. apply (in_main_mode _ _ _ _ Hc). unfold mode_trace.
      rewrite Hb, Hv. unfold benchmark_encode_trace. rewrite Hx'.
      right. left. reflexivity.
    + right. apply (in_main_mode _ _ _ _ Hc). unfold mode_trace.
      rewrite Hb, Hv. unfold encode_trace, setup_trace. rewrite Hx'.
      left. reflexivity.
Qed.

(** [--etc2 --dxt1] *)
Lemma etc2_with_dxt1_witness :
  let cl := mk_CommandLine 5 ["etcpak"; "--etc2"; "--dxt1"; "in.png"; "out.pvr"]
                           [(OptEtc2, ""); (OptDxt1, "")] 3 in
  let w := Sample.world true in
  types (fst (main cl w)) <> [] /\
  (forall ty, In ty (types (fst (main cl w))) -> BlockData.is_etc2 ty = true) /\
  (In (NewBitmap "in.png" false) (fst (main cl w)) \/
   In (NewDataProvider "in.png" false false) (fst (main cl w))).
Proof.
  exact (etc2_with_dxt1
           (mk_CommandLine 5 ["etcpak"; "--etc2"; "--dxt1"; "in.png"; "out.pvr"]
                           [(OptEtc2, ""); (OptDxt1, "")] 3)
           (Sample.world true)
           (mk_Flags false false false false false true false true None)
           eq_refl eq_refl eq_refl eq_refl).
Defined.
